(** * Dolphin MCP sandbox: import policy gate, session store and executor

    A shallow embedding of
    - [validate_imports] and [ALLOWED_LIBRARIES]
      (test_import_restrictions.py, demo_import_restrictions.py),
    - [DockerSandboxExecutor] and [sandboxed_python_interpreter]
      (src/dolphin_mcp/docker_sandbox.py),
    with the properties of the specification stated over it. *)

From Stdlib Require Import Ascii String ZArith.
From stdpp Require Import gmap strings list sorting.

Set Warnings "-clear-no-such-hyp".

(** ** Python string helpers *)

Module PyStr.

(** The line break character. *)
Definition nl : string := String (ascii_of_nat 10) EmptyString.

(** [s.split(sep)] for a one-character separator. *)
Fixpoint split (sep : ascii) (s : string) : list string :=
  match s with
  | EmptyString => [EmptyString]
  | String c s' =>
      if Ascii.eqb c sep then EmptyString :: split sep s'
      else match split sep s' with
           | w :: ws => String c w :: ws
           | [] => [String c EmptyString]
           end
  end.

(** [l[0]]; every list produced by [split] has a first element. *)
Definition item0 (l : list string) : string :=
  match l with
  | x :: _ => x
  | [] => EmptyString
  end.

(** [sep.join(l)] *)
Definition join (sep : string) (l : list string) : string :=
  String.concat sep l.

(** [sorted(xs)] on strings: ascending in the code-point order of
    [str.__lt__], which on byte strings is [String.le]. *)
Definition sorted (xs : list string) : list string :=
  merge_sort String.le xs.

(** [s.startswith(p)] *)
Definition startswith (s p : string) : bool := String.prefix p s.

(** Truth value of a string: the empty string is false. *)
Definition truthy (s : string) : bool :=
  match s with
  | EmptyString => false
  | String _ _ => true
  end.

(** [s[:n]] *)
Definition take (n : nat) (s : string) : string := String.substring 0 n s.

End PyStr.

(** ** The syntax tree that [ast.parse] returns

    Only the shape that [validate_imports] can observe is kept: the two
    import statement nodes with their fields, the [alias] nodes below
    them, and every other node kind as a bare list of child nodes. *)

Record alias := mk_alias {
  alias_name : string;
  alias_asname : option string
}.

#[local] Unset Elimination Schemes.
Inductive node :=
| Import (names : list alias)
| ImportFrom (module : option string) (names : list alias) (level : nat)
| AliasNode (a : alias)
| Node (children : list node).
#[local] Set Elimination Schemes.

(** [ast.iter_child_nodes] *)
Definition iter_child_nodes (n : node) : list node :=
  match n with
  | Import names => AliasNode <$> names
  | ImportFrom _ names _ => AliasNode <$> names
  | AliasNode _ => []
  | Node children => children
  end.

Fixpoint node_size (n : node) : nat :=
  match n with
  | Import names => S (length names)
  | ImportFrom _ names _ => S (length names)
  | AliasNode _ => 1
  | Node children =>
      S ((fix sizes (l : list node) : nat :=
            match l with
            | [] => 0
            | c :: l' => node_size c + sizes l'
            end) children)
  end.

Definition queue_size (todo : list node) : nat :=
  foldr (fun n acc => node_size n + acc) 0 todo.

(** [ast.walk]: a deque is seeded with the root; each step pops the
    leftmost node, appends its children on the right and yields it.
    The loop runs once per node, so [node_size] steps always suffice. *)
Fixpoint walk_queue (fuel : nat) (todo : list node) : list node :=
  match fuel with
  | 0 => []
  | S fuel' =>
      match todo with
      | [] => []
      | n :: rest => n :: walk_queue fuel' (rest ++ iter_child_nodes n)
      end
  end.

Definition walk (tree : node) : list node :=
  walk_queue (node_size tree) [tree].

(** ** The allow-list *)

Definition ALLOWED_LIBRARIES : gset string :=
  list_to_set [
    "sys"; "os"; "math"; "random"; "datetime"; "time"; "json"; "csv"; "io";
    "collections";
    "itertools"; "functools"; "operator"; "re"; "string"; "textwrap";
    "unicodedata";
    "struct"; "codecs"; "base64"; "binascii"; "hashlib"; "hmac"; "secrets";
    "pathlib"; "glob"; "fnmatch"; "tempfile"; "shutil"; "pickle"; "shelve";
    "sqlite3"; "gzip"; "bz2"; "lzma"; "zipfile"; "tarfile";
    "configparser"; "argparse"; "logging"; "warnings"; "traceback";
    "decimal"; "fractions"; "statistics"; "enum"; "typing"; "copy"; "pprint";
    "heapq"; "bisect"; "array"; "queue"; "threading"; "multiprocessing";
    "subprocess"; "socket"; "ssl"; "email"; "urllib"; "http"; "html";
    "xml"; "webbrowser"; "uuid"; "contextlib"; "abc"; "dataclasses";
    "numpy"; "np";
    "pandas"; "pd";
    "matplotlib"; "plt";
    "scipy";
    "sklearn"; "scikit-learn";
    "pdfplumber";
    "fitz"; "pymupdf";
    "docx"; "python-docx";
    "pptx"; "python-pptx";
    "openpyxl";
    "chardet";
    "magic"; "python-magic"
  ].

(** ** [validate_imports] *)

(** [module_name = name.split('.')[0]] *)
Definition top_level (name : string) : string :=
  PyStr.item0 (PyStr.split "." name).

(** One [alias] of an [ast.Import]: the full dotted name goes into the
    set when its first segment is not allowed. *)
Definition check_alias (disallowed_imports : gset string) (a : alias)
  : gset string :=
  let module_name := top_level (alias_name a) in
  if decide (module_name ∈ ALLOWED_LIBRARIES) then disallowed_imports
  else disallowed_imports ∪ {[ alias_name a ]}.

(** The body of [for node in ast.walk(tree)]. *)
Definition check_node (disallowed_imports : gset string) (n : node)
  : gset string :=
  match n with
  | Import names => foldl check_alias disallowed_imports names
  | ImportFrom module _ _ =>
      match module with
      | Some m =>
          if PyStr.truthy m then
            let module_name := top_level m in
            if decide (module_name ∈ ALLOWED_LIBRARIES) then disallowed_imports
            else disallowed_imports ∪ {[ m ]}
          else disallowed_imports
      | None => disallowed_imports
      end
  | _ => disallowed_imports
  end.

(** The value of [disallowed_imports] when the loop ends. *)
Definition disallowed_imports (tree : node) : gset string :=
  foldl check_node ∅ (walk tree).

Definition violation_prefix : string :=
  "Import restriction violation: The following imports are not allowed: ".

Definition syntax_error_prefix : string := "Syntax error in code: ".

(** The names as the message lists them. *)
Definition listed (violations : gset string) : string :=
  PyStr.join ", " (PyStr.sorted (elements violations)).

(** The text the demo copy appends; its f-strings spell a backslash
    followed by [n], not a line break. *)
Definition demo_summary : string :=
  "\n\nAllowed libraries:\n- Standard Python library modules\n- numpy, pandas, matplotlib, scipy, scikit-learn\n- pdfplumber, pymupdf, python-docx, python-pptx\n- openpyxl, chardet, python-magic".

(** What follows the parse: the loop, then the verdict.  [summary] is
    the tail of the rejection message, empty in
    test_import_restrictions.py and [demo_summary] in
    demo_import_restrictions.py. *)
Definition verdict (summary : string) (tree : node) : bool * string :=
  let disallowed := disallowed_imports tree in
  if decide (disallowed = ∅) then (true, "")
  else (false, violation_prefix +:+ listed disallowed +:+ summary).

Section Validate.

(** [ast.parse]: [inl msg] stands for a raised [SyntaxError] whose
    [str()] is [msg], [inr tree] for the returned module node. *)
Variable ast_parse : string -> string + node.

Variable summary : string.

Definition validate_imports_with (code : string) : bool * string :=
  match ast_parse code with
  | inl e => (false, syntax_error_prefix +:+ e)
  | inr tree => verdict summary tree
  end.

End Validate.

(** test_import_restrictions.py *)
Definition validate_imports (ast_parse : string -> string + node)
  (code : string) : bool * string :=
  validate_imports_with ast_parse "" code.

(** demo_import_restrictions.py *)
Definition demo_validate_imports (ast_parse : string -> string + node)
  (code : string) : bool * string :=
  validate_imports_with ast_parse demo_summary code.

(** ** The import statements of a tree, read off its structure *)

(** Every node of the tree, parents before children, depth first. *)
Fixpoint all_nodes (n : node) : list node :=
  n :: match n with
       | Import names => AliasNode <$> names
       | ImportFrom _ names _ => AliasNode <$> names
       | AliasNode _ => []
       | Node children =>
           (fix go (l : list node) : list node :=
              match l with
              | [] => []
              | c :: l' => all_nodes c ++ go l'
              end) children
       end.

(** The module paths one statement names: each alias of an [import],
    the module of a [from ... import] when it has one. *)
Definition named_modules (n : node) : list string :=
  match n with
  | Import names => alias_name <$> names
  | ImportFrom (Some m) _ _ => if PyStr.truthy m then [m] else []
  | _ => []
  end.

(** The module paths the snippet imports. *)
Definition imported_modules (tree : node) : list string :=
  all_nodes tree ≫= named_modules.

(** A [from . import y] statement: no module name. *)
Definition bare_relative (n : node) : bool :=
  match n with
  | ImportFrom None _ _ => true
  | _ => false
  end.

Definition is_import (n : node) : bool :=
  match n with
  | Import _ | ImportFrom _ _ _ => true
  | _ => false
  end.

(** The tree without its [from . import y] statements. *)
Fixpoint prune (n : node) : node :=
  match n with
  | Node children =>
      Node ((fix go (l : list node) : list node :=
               match l with
               | [] => []
               | c :: l' => if bare_relative c then go l' else prune c :: go l'
               end) children)
  | _ => n
  end.

(** The violation set as the testable property words it: the
    disallowed top-level names that the snippet references. *)
Definition disallowed_top_level (tree : node) : gset string :=
  list_to_set
    (filter (fun t => t ∉ ALLOWED_LIBRARIES) (top_level <$> imported_modules tree)).

(** ** Trees of the snippets used as examples

    [Node] at the root is the [ast.Module]; its children are the
    statements. *)

Definition plain (name : string) : alias := mk_alias name None.

Definition tree_import (name : string) : node := Node [Import [plain name]].

Definition tree_from_scipy_stats : node :=
  Node [ImportFrom (Some "scipy.stats") [plain "norm"] 0].

Definition tree_from_dot : node :=
  Node [ImportFrom None [plain "y"] 1].

Definition tree_json_torch : node :=
  Node [Import [plain "json"]; Import [plain "torch"]].

Definition tree_demo_invalid : node :=
  Node [Import [mk_alias "numpy" (Some "np")];
        Import [plain "requests"];
        Import [plain "flask"];
        Import [plain "requests"]].

(** What [ast.parse] answers on those snippets; the last one, a lone
    [import] keyword, is not a statement. *)
Definition sample_parse (code : string) : string + node :=
  if String.eqb code "import requests" then inr (tree_import "requests")
  else if String.eqb code "import requests.adapters"
       then inr (tree_import "requests.adapters")
  else if String.eqb code "import np" then inr (tree_import "np")
  else if String.eqb code "import pd" then inr (tree_import "pd")
  else if String.eqb code "import plt" then inr (tree_import "plt")
  else if String.eqb code "from scipy.stats import norm"
       then inr tree_from_scipy_stats
  else if String.eqb code "from . import y" then inr tree_from_dot
  else if String.eqb code ("import json" +:+ PyStr.nl +:+ "import torch")
       then inr tree_json_torch
  else inl "invalid syntax (<unknown>, line 1)".

(** ** Python values, exceptions and results *)

Inductive pyvalue :=
| PyNone
| PyStr (s : string)
| PyInt (z : Z).

(** [bool(v)] *)
Definition py_truthy (v : pyvalue) : bool :=
  match v with
  | PyNone => false
  | PyStr s => PyStr.truthy s
  | PyInt z => negb (Z.eqb z 0)
  end.

(** A [bytes] value as [decode('utf-8')] sees it: well-formed, with its
    text, or malformed, with the decoder's complaint. *)
Inductive pybytes :=
| Utf8 (text : string)
| NotUtf8 (complaint : string).

(** The exception classes the code raises or tells apart.  Only
    subclasses of [Exception] are modelled. *)
Inductive exc_class :=
| ContainerError
| ImageNotFound
| APIError
| DockerException
| ReadTimeout
| RuntimeError
| TypeError
| AttributeError
| UnicodeDecodeError
| FileNotFoundError
| IsADirectoryError
| ValueError
| OSError
| OtherException.

(** [issubclass(c, docker.errors.DockerException)] *)
Definition is_docker_exception (c : exc_class) : bool :=
  match c with
  | ContainerError | ImageNotFound | APIError | DockerException => true
  | _ => false
  end.

(** An exception object: its class, [str(e)], and the [stderr]
    attribute that a [ContainerError] carries ([None] when absent). *)
Record exn := mk_exn {
  exn_class : exc_class;
  exn_str : string;
  exn_stderr : option pybytes
}.

Definition error (c : exc_class) (msg : string) : exn := mk_exn c msg None.

Inductive result (A : Type) :=
| Return (a : A)
| Raise (e : exn).
Arguments Return {A} a.
Arguments Raise {A} e.

(** [b.decode('utf-8')] *)
Definition decode_utf8 (b : pybytes) : result string :=
  match b with
  | Utf8 text => Return text
  | NotUtf8 complaint => Raise (error UnicodeDecodeError complaint)
  end.

(** ** [pathlib] on POSIX *)

Module Pathlib.

Inductive anchor := Relative | Root | DoubleSlash.

#[global] Instance anchor_eq_dec : EqDecision anchor.
Proof. solve_decision. Defined.

(** A pure path: its root and its components.  Empty components and
    [.] are dropped when a string is parsed; [..] is kept. *)
Record Path := mk_path {
  path_root : anchor;
  parts : list string
}.

Definition root_of (s : string) : anchor :=
  match s with
  | String "/" (String "/" (String "/" _)) => Root
  | String "/" (String "/" _) => DoubleSlash
  | String "/" _ => Root
  | _ => Relative
  end.

(** [Path(s)] *)
Definition of_string (s : string) : Path :=
  mk_path (root_of s)
          (filter (fun c => c ≠ "" ∧ c ≠ ".") (PyStr.split "/" s)).

(** [p / key]: an anchored [key] replaces [p]. *)
Definition joinpath (p : Path) (key : string) : Path :=
  let q := of_string key in
  match path_root q with
  | Relative => mk_path (path_root p) (parts p ++ parts q)
  | _ => q
  end.

(** [p.name] *)
Definition name (p : Path) : string := List.last (parts p) "".

(** [str(p)] *)
Definition to_string (p : Path) : string :=
  match path_root p with
  | Relative =>
      match parts p with
      | [] => "."
      | _ => PyStr.join "/" (parts p)
      end
  | Root => "/" +:+ PyStr.join "/" (parts p)
  | DoubleSlash => "//" +:+ PyStr.join "/" (parts p)
  end.

(** [p.is_relative_to(other)]: a comparison of roots and components,
    with no access to the file system. *)
Definition is_relative_to (p other : Path) : bool :=
  bool_decide (path_root other = path_root p ∧ parts other `prefix_of` parts p).

(** *** The host file system, without symbolic links *)

#[local] Unset Elimination Schemes.
Inductive fsnode :=
| File (content : pybytes)
| Dir (entries : list (string * fsnode)).
#[local] Set Elimination Schemes.

Record filesystem := mk_fs {
  fs_root : fsnode;
  cwd : list string
}.

Fixpoint entry (name : string) (entries : list (string * fsnode))
  : option fsnode :=
  match entries with
  | [] => None
  | (n, child) :: rest => if String.eqb n name then Some child else entry name rest
  end.

(** One step of path lookup.  The stack holds the directory reached
    and its ancestors; [..] leaves the directory, and stays at the
    root when there is nowhere to go. *)
Definition descend (stack : list fsnode) (c : string) : option (list fsnode) :=
  match stack with
  | Dir entries :: up =>
      if String.eqb c ".." then
        Some (match up with [] => stack | _ :: _ => up end)
      else
        match entry c entries with
        | Some child => Some (child :: stack)
        | None => None
        end
  | _ => None
  end.

Fixpoint descend_all (stack : list fsnode) (cs : list string)
  : option (list fsnode) :=
  match cs with
  | [] => Some stack
  | c :: cs' =>
      match descend stack c with
      | Some stack' => descend_all stack' cs'
      | None => None
      end
  end.

(** The components looked up from the root: a relative path starts at
    the working directory. *)
Definition components (fs : filesystem) (p : Path) : list string :=
  match path_root p with
  | Relative => cwd fs ++ parts p
  | _ => parts p
  end.

(** What the path leads to, if anything. *)
Definition stat (fs : filesystem) (p : Path) : option fsnode :=
  match descend_all [fs_root fs] (components fs p) with
  | Some (n :: _) => Some n
  | _ => None
  end.

(** [p.exists()] *)
Definition path_exists (fs : filesystem) (p : Path) : bool :=
  match stat fs p with
  | Some _ => true
  | None => false
  end.

(** What a file opened in text mode hands over: a carriage return,
    alone or followed by a line feed, is read as one line feed. *)
Fixpoint universal_newlines (s : string) : string :=
  match s with
  | EmptyString => EmptyString
  | String c s' =>
      if Ascii.eqb c (ascii_of_nat 13) then
        String (ascii_of_nat 10)
               match s' with
               | String c' s'' =>
                   if Ascii.eqb c' (ascii_of_nat 10) then universal_newlines s''
                   else universal_newlines s'
               | EmptyString => EmptyString
               end
      else String c (universal_newlines s')
  end.

(** [p.read_text()], in a UTF-8 locale: the bytes of the file are
    decoded, which fails on bytes that are not UTF-8, and the line
    breaks are normalised. *)
Definition read_text (fs : filesystem) (p : Path) : result string :=
  match stat fs p with
  | Some (File content) =>
      match decode_utf8 content with
      | Return text => Return (universal_newlines text)
      | Raise e => Raise e
      end
  | Some (Dir _) =>
      Raise (error IsADirectoryError ("[Errno 21] Is a directory: '" +:+ to_string p +:+ "'"))
  | None =>
      Raise (error FileNotFoundError
                   ("[Errno 2] No such file or directory: '" +:+ to_string p +:+ "'"))
  end.

(** Where the path leads: the components that remain once every [..]
    has cancelled the component before it. *)
Definition up_or_down (acc : list string) (c : string) : list string :=
  if String.eqb c ".." then removelast acc else acc ++ [c].

Definition resolve (fs : filesystem) (p : Path) : list string :=
  foldl up_or_down [] (components fs p).

(** The resolved path lies in, or is, the resolved directory. *)
Definition contained_in (fs : filesystem) (p dir : Path) : Prop :=
  resolve fs dir `prefix_of` resolve fs p.

End Pathlib.

(** ** Session store: [read_session_file] *)

Definition read_session_file (fs : Pathlib.filesystem)
  (session_dir : Pathlib.Path) (filename : string) : result string :=
  let file_path := Pathlib.joinpath session_dir filename in
  if negb (Pathlib.path_exists fs file_path) then
    Raise (error FileNotFoundError ("File not found: " +:+ filename))
  else if negb (Pathlib.is_relative_to file_path session_dir) then
    Raise (error ValueError "Path traversal attempt detected")
  else Pathlib.read_text fs file_path.

(** A host with two sessions side by side under /tmp/sandboxes and a
    password file. *)
Definition sample_fs : Pathlib.filesystem :=
  Pathlib.mk_fs
    (Pathlib.Dir
       [("etc", Pathlib.Dir [("passwd", Pathlib.File (Utf8 "root:x:0:0"))]);
        ("tmp", Pathlib.Dir
           [("sandboxes", Pathlib.Dir
               [("alice", Pathlib.Dir [("r.txt", Pathlib.File (Utf8 "hi"))]);
                ("bob", Pathlib.Dir [("secret.txt", Pathlib.File (Utf8 "bob's data"))])])])])
    [].

Definition alice_dir : Pathlib.Path :=
  Pathlib.joinpath (Pathlib.of_string "/tmp/sandboxes") "alice".

(** ** The world the executor acts on *)

(** The keyword arguments of [containers.create]. *)
Record container_config := mk_config {
  cfg_image : string;
  cfg_command : list string;
  cfg_volumes : list (string * (string * string));
  cfg_network_mode : string;
  cfg_mem_limit : string;
  cfg_cpu_quota : Z;
  cfg_user : string;
  cfg_security_opt : list string;
  cfg_cap_drop : list string;
  cfg_read_only : bool;
  cfg_tmpfs : list (string * string)
}.

(** How the started container behaves: it exits with a status after
    some seconds, or never does. *)
Inductive run_behaviour :=
| Exits (seconds : Z) (status : Z)
| Hangs.

(** How the host and the Docker engine answer during one call.  A
    fault is the exception the operation raises, if it raises. *)
Record engine := mk_engine {
  uuid_stream : nat -> string;
  mkdir_fault : option exn;
  from_env_fault : option exn;
  from_env_ping_fault : option exn;
  socket_present : string -> bool;
  socket_fault : string -> option exn;
  socket_ping_fault : string -> option exn;
  images_get_fault : option exn;
  write_text_fault : option exn;
  create_fault : option exn;
  start_fault : option exn;
  run : run_behaviour;
  wait_fault : option exn;
  logs_reply : result pybytes;
  remove_fault : option exn;
  exists_fault : option exn;
  unlink_fault : option exn
}.

Inductive event :=
| EvMkdir (dir : Pathlib.Path)
| EvWriteText (p : Pathlib.Path) (text : string)
| EvCreate (cfg : container_config)
| EvStart
| EvWait (timeout : Z)
| EvLogs
| EvRemove (force : bool)
| EvUnlink (p : Pathlib.Path).

(** What changes as the code runs: the number of [uuid4()] calls made,
    the dict objects by reference, the staged script files present,
    the containers created and not yet removed, and the calls made so
    far, oldest first. *)
Record world := mk_world {
  uuids_drawn : nat;
  heap : gmap nat (gmap string pyvalue);
  scripts : gset string;
  containers : nat;
  trace : list event
}.

Definition set_uuids_drawn (n : nat) (w : world) : world :=
  mk_world n (heap w) (scripts w) (containers w) (trace w).
Definition set_heap (h : gmap nat (gmap string pyvalue)) (w : world) : world :=
  mk_world (uuids_drawn w) h (scripts w) (containers w) (trace w).
Definition set_scripts (s : gset string) (w : world) : world :=
  mk_world (uuids_drawn w) (heap w) s (containers w) (trace w).
Definition set_containers (n : nat) (w : world) : world :=
  mk_world (uuids_drawn w) (heap w) (scripts w) n (trace w).
Definition log_event (e : event) (w : world) : world :=
  mk_world (uuids_drawn w) (heap w) (scripts w) (containers w) (trace w ++ [e]).

(** Computations that read and change the world and may raise. *)
Definition M (A : Type) : Type := world -> result A * world.

#[global] Instance M_ret : MRet M := fun A a w => (Return a, w).

#[global] Instance M_bind : MBind M := fun A B f m w =>
  match m w with
  | (Return a, w') => f a w'
  | (Raise e, w') => (Raise e, w')
  end.

Definition raise {A : Type} (e : exn) : M A := fun w => (Raise e, w).

Definition modify (f : world -> world) : M unit := fun w => (Return tt, f w).

Definition read {A : Type} (f : world -> A) : M A := fun w => (Return (f w), w).

(** [try: body  except Exception as e: handler(e)] *)
Definition try_except {A : Type} (body : M A) (handler : exn -> M A) : M A :=
  fun w =>
    match body w with
    | (Return a, w') => (Return a, w')
    | (Raise e, w') => handler e w'
    end.

(** [try: body  finally: cleanup]: an exception of the cleanup replaces
    the outcome of the body. *)
Definition try_finally {A : Type} (body : M A) (cleanup : M unit) : M A :=
  fun w =>
    match body w with
    | (r, w') =>
        match cleanup w' with
        | (Return _, w'') => (r, w'')
        | (Raise e, w'') => (Raise e, w'')
        end
    end.

(** An operation that raises its fault, if it has one, and otherwise
    takes effect. *)
Definition attempt (fault : option exn) (effect : world -> world) : M unit :=
  match fault with
  | Some e => raise e
  | None => modify effect
  end.

(** ** uuid *)

(** [uuid.uuid4()]: the next value of the stream, as 32 hex digits. *)
Definition uuid4 (E : engine) : M string :=
  n ← read uuids_drawn;
  modify (set_uuids_drawn (S n));;
  mret (uuid_stream E n).

(** [str(u)]: the digits in groups of 8-4-4-4-12. *)
Definition uuid_str (hex : string) : string :=
  String.substring 0 8 hex +:+ "-" +:+ String.substring 8 4 hex +:+ "-" +:+
  String.substring 12 4 hex +:+ "-" +:+ String.substring 16 4 hex +:+ "-" +:+
  String.substring 20 12 hex.

(** ** Dict objects *)

Definition deref (l : nat) : M (gmap string pyvalue) :=
  read (fun w => default ∅ (heap w !! l)).

(** [d.get(key)] *)
Definition dict_get (l : nat) (key : string) : M pyvalue :=
  d ← deref l; mret (default PyNone (d !! key)).

(** [d[key] = v] *)
Definition dict_set (l : nat) (key : string) (v : pyvalue) : M unit :=
  d ← deref l; modify (fun w => set_heap (<[l := <[key := v]> d]> (heap w)) w).

(** ** [DockerSandboxExecutor] *)

(** The attributes that [__init__] sets. *)
Record executor := mk_executor {
  session_id : pyvalue;
  sandbox_base_dir : Pathlib.Path;
  container_mount_path : string;
  full_image_name : string;
  memory_limit : string;
  cpu_quota : Z;
  enable_network : bool;
  timeout : Z;
  session_dir : Pathlib.Path;
  docker_client : string
}.

(** The keyword arguments of [__init__] other than [session_id]. *)
Record options := mk_options {
  opt_sandbox_base_dir : string;
  opt_container_mount_path : string;
  opt_image_name : string;
  opt_image_tag : string;
  opt_memory_limit : string;
  opt_cpu_quota : Z;
  opt_enable_network : bool;
  opt_timeout : Z
}.

Definition default_options : options :=
  mk_options "/tmp/sandboxes" "/sandbox" "dolphin-python-sandbox" "latest"
             "512m" 100000 false 30.

(** The two socket locations tried in turn; [~] is left as written. *)
Definition socket_locations : list string :=
  ["~/.docker/run/docker.sock"; "/var/run/docker.sock"].

(** What [container.wait] raises when the time is up. *)
Definition timeout_error : exn := error ReadTimeout "Read timed out.".

Section Executor.

(** [traceback.format_exc()] while the given exception is handled. *)
Variable format_exc : exn -> string.

(** [repr] of a dict. *)
Variable repr : gmap string pyvalue -> string.

Variable E : engine.

(** The loop over [socket_locations]: a client that was built stays
    assigned even when its ping fails. *)
Fixpoint try_sockets (client : option string) (locations : list string)
  : option string :=
  match locations with
  | [] => client
  | socket_path :: rest =>
      if socket_present E socket_path then
        match socket_fault E socket_path with
        | Some _ => try_sockets client rest
        | None =>
            match socket_ping_fault E socket_path with
            | Some _ => try_sockets (Some ("unix://" +:+ socket_path)) rest
            | None => Some ("unix://" +:+ socket_path)
            end
        end
      else try_sockets client rest
  end.

(** The client the connection attempts leave in [docker_client]. *)
Definition connect : option string :=
  match from_env_fault E with
  | Some _ => try_sockets None socket_locations
  | None =>
      match from_env_ping_fault E with
      | Some _ => try_sockets (Some "env") socket_locations
      | None => Some "env"
      end
  end.

(** The [try] block that initialises the client, with its two
    handlers. *)
Definition init_client : M string :=
  try_except
    (match connect with
     | Some client => mret client
     | None => raise (error RuntimeError "Could not connect to Docker daemon")
     end)
    (fun e =>
       if is_docker_exception (exn_class e) then
         raise (error RuntimeError
                  ("Docker daemon is not available. Please ensure Docker Desktop is running." +:+
                   PyStr.nl +:+ "Error: " +:+ exn_str e +:+ PyStr.nl +:+
                   "On macOS, start Docker Desktop from Applications or run: open -a Docker"))
       else
         raise (error RuntimeError ("Docker is not available: " +:+ exn_str e))).

Definition _ensure_image_exists (full_image_name : string) : M unit :=
  match images_get_fault E with
  | None => mret tt
  | Some e =>
      match exn_class e with
      | ImageNotFound =>
          raise (error RuntimeError
                   ("Docker image '" +:+ full_image_name +:+ "' not found. " +:+
                    "Build it with: docker build -f Dockerfile.sandbox -t " +:+
                    full_image_name +:+ " ."))
      | _ => raise e
      end
  end.

(** [DockerSandboxExecutor.__init__] *)
Definition init (sid : pyvalue) (o : options) : M executor :=
  sid' ← (if py_truthy sid then mret sid
          else u ← uuid4 E; mret (PyStr (uuid_str u)));
  let base := Pathlib.of_string (opt_sandbox_base_dir o) in
  dir ← match sid' with
        | PyStr s => mret (Pathlib.joinpath base s)
        | _ => raise (error TypeError "unsupported operand type(s) for /")
        end;
  attempt (mkdir_fault E) (log_event (EvMkdir dir));;
  client ← init_client;
  let image := opt_image_name o +:+ ":" +:+ opt_image_tag o in
  _ensure_image_exists image;;
  mret (mk_executor sid' base (opt_container_mount_path o) image
          (opt_memory_limit o) (opt_cpu_quota o) (opt_enable_network o)
          (opt_timeout o) dir client).

(** [_prepare_script] *)
Definition _prepare_script (code : string)
  (context : option (gmap string pyvalue)) : string :=
  let script_parts :=
    ["#!/usr/bin/env python3";
     "# Sandboxed Python execution";
     "import sys";
     "import json";
     "import traceback";
     ""] in
  let script_parts :=
    match context with
    | Some d =>
        if decide (d = ∅) then script_parts
        else script_parts ++
             ["# Load context";
              "import pickle";
              "context = " +:+ repr d;
              "# Inject context into globals";
              "globals().update(context)";
              ""]
    | None => script_parts
    end in
  let script_parts :=
    script_parts ++ ["# User code"; "try:"; "    # Execute user code"] in
  let script_parts :=
    script_parts ++
    ((fun line => "    " +:+ line) <$> PyStr.split (ascii_of_nat 10) code) in
  let script_parts :=
    script_parts ++
    [""; "except Exception as e:";
     "    print('EXECUTION ERROR:', file=sys.stderr)";
     "    traceback.print_exc()";
     "    sys.exit(1)"] in
  PyStr.join PyStr.nl script_parts.

(** The arguments [execute_code] passes to [containers.create]. *)
Definition create_args (self : executor) (script_name : string)
  : container_config :=
  mk_config
    (full_image_name self)
    ["python3"; container_mount_path self +:+ "/" +:+ script_name]
    [(Pathlib.to_string (session_dir self), (container_mount_path self, "rw"))]
    (if negb (enable_network self) then "none" else "bridge")
    (memory_limit self)
    (cpu_quota self)
    "sandbox"
    ["no-new-privileges"]
    ["ALL"]
    false
    [("/tmp", "size=100M,mode=1777")].

(** [container.wait(timeout=t)]: the exit status, or [timeout_error]
    when the container has not exited by then. *)
Definition container_wait (t : Z) : M Z :=
  modify (log_event (EvWait t));;
  match wait_fault E with
  | Some e => raise e
  | None =>
      match run E with
      | Exits seconds status =>
          if (seconds <=? t)%Z then mret status else raise timeout_error
      | Hangs => raise timeout_error
      end
  end.

(** [container.logs(stdout=True, stderr=True)] *)
Definition container_logs : M pybytes :=
  modify (log_event EvLogs);;
  match logs_reply E with
  | Return b => mret b
  | Raise e => raise e
  end.

(** [try: container.remove(force=True)  except: pass] *)
Definition remove_quietly : M unit :=
  modify (log_event (EvRemove true));;
  match remove_fault E with
  | Some _ => mret tt
  | None => modify (fun w => set_containers (pred (containers w)) w)
  end.

(** The [finally] clause of [execute_code]: the staged script is
    unlinked if it is there; a failure to unlink is only logged. *)
Definition cleanup_script (script_path : Pathlib.Path) : M unit :=
  match exists_fault E with
  | Some e => raise e
  | None =>
      present ← read (fun w => bool_decide (Pathlib.to_string script_path ∈ scripts w));
      if (present : bool) then
        modify (log_event (EvUnlink script_path));;
        match unlink_fault E with
        | Some _ => mret tt
        | None =>
            modify (fun w => set_scripts (scripts w ∖ {[ Pathlib.to_string script_path ]}) w)
        end
      else mret tt
  end.

(** The two [except] clauses of [execute_code]. *)
Definition execute_code_handler (e : exn) : M string :=
  match exn_class e with
  | ContainerError =>
      stderr_text ← match exn_stderr e with
                    | Some b =>
                        match decode_utf8 b with
                        | Return t => mret t
                        | Raise e' => raise e'
                        end
                    | None =>
                        raise (error AttributeError
                                 "'NoneType' object has no attribute 'decode'")
                    end;
      let error_msg := "Container execution error:" +:+ PyStr.nl +:+ stderr_text in
      mret ("EXECUTION ERROR:" +:+ PyStr.nl +:+ error_msg)
  | _ =>
      let error_msg := "Unexpected error:" +:+ PyStr.nl +:+ format_exc e in
      mret ("ERROR:" +:+ PyStr.nl +:+ error_msg)
  end.

(** [execute_code] *)
Definition execute_code (self : executor) (code : string)
  (context : option (gmap string pyvalue)) : M string :=
  u ← uuid4 E;
  let script_path :=
    Pathlib.joinpath (session_dir self) ("script_" +:+ PyStr.take 8 u +:+ ".py") in
  try_finally
    (try_except
       (let full_script := _prepare_script code context in
        attempt (write_text_fault E)
          (fun w => log_event (EvWriteText script_path full_script)
                      (set_scripts (scripts w ∪ {[ Pathlib.to_string script_path ]}) w));;
        let cfg := create_args self (Pathlib.name script_path) in
        attempt (create_fault E)
          (fun w => log_event (EvCreate cfg) (set_containers (S (containers w)) w));;
        result ← try_finally
                    (attempt (start_fault E) (log_event EvStart);;
                     exit_status ← container_wait (timeout self);
                     container_logs)
                    remove_quietly;
        match decode_utf8 result with
        | Return output => mret output
        | Raise e => raise e
        end)
       execute_code_handler)
    (cleanup_script script_path).

(** The first step of [sandboxed_python_interpreter]: the session id
    to use.  [context] is a reference to the caller's dict. *)
Definition resolve_session_id (context : nat) (sid : option string)
  : M pyvalue :=
  match sid with
  | Some s => mret (PyStr s)
  | None =>
      v ← dict_get context "__sandbox_session_id__";
      match v with
      | PyNone =>
          u ← uuid4 E;
          let fresh := PyStr (uuid_str u) in
          dict_set context "__sandbox_session_id__" fresh;;
          mret fresh
      | _ => mret v
      end
  end.

(** [sandboxed_python_interpreter] *)
Definition sandboxed_python_interpreter (code : string) (context : nat)
  (sid : option string) (image_name image_tag : string) : M string :=
  sid' ← resolve_session_id context sid;
  try_except
    (self ← init sid'
              (mk_options "/tmp/sandboxes" "/sandbox" image_name image_tag
                          "512m" 100000 false 30);
     d ← deref context;
     execute_code self code (Some d))
    (fun e => mret ("SANDBOX ERROR:" +:+ PyStr.nl +:+ format_exc e)).

End Executor.

(** ** Engines and worlds used as examples *)

Definition sample_format_exc (e : exn) : string :=
  "Traceback (most recent call last):" +:+ PyStr.nl +:+ exn_str e.

Definition sample_repr (d : gmap string pyvalue) : string := "{...}".

Definition sample_uuids (n : nat) : string :=
  match n with
  | 0 => "1b4e28ba2fa111d2883f0016d3cca427"
  | 1 => "6fa459eaee8a3ca4894edb77e160355e"
  | _ => "886313e13b8a53729b900c9aee199e5d"
  end.

(** An engine on which every call succeeds: the container behaves as
    given and its log holds the given bytes. *)
Definition healthy (r : run_behaviour) (logs : pybytes) : engine :=
  mk_engine sample_uuids None None None (fun _ => false) (fun _ => None)
            (fun _ => None) None None None None r None (Return logs)
            None None None.

(** The same engine, except that removing the container fails. *)
Definition sticky (r : run_behaviour) (logs : pybytes) : engine :=
  mk_engine sample_uuids None None None (fun _ => false) (fun _ => None)
            (fun _ => None) None None None None r None (Return logs)
            (Some (error APIError "removal of container is already in progress"))
            None None.

(** An engine with no reachable daemon. *)
Definition unreachable : engine :=
  mk_engine sample_uuids None
            (Some (error DockerException "Error while fetching server API version"))
            None (fun _ => false) (fun _ => None) (fun _ => None)
            None None None None Hangs None (Return (Utf8 "")) None None None.

Definition empty_world : world := mk_world 0 ∅ ∅ 0 [].

(** A world whose heap holds one dict, at reference 0. *)
Definition world_with (d : gmap string pyvalue) : world :=
  mk_world 0 {[ 0 := d ]} ∅ 0 [].

Definition alice : executor :=
  mk_executor (PyStr "alice") (Pathlib.of_string "/tmp/sandboxes") "/sandbox"
              "dolphin-python-sandbox:latest" "512m" 100000 false 30
              alice_dir "env".

Definition session_key : string := "__sandbox_session_id__".

(** *** What a run is, seen from the engine *)

(** No call of [execute_code] raises, the wait apart. *)
Definition undisturbed (E : engine) : Prop :=
  write_text_fault E = None ∧ create_fault E = None ∧ start_fault E = None ∧
  wait_fault E = None ∧ exists_fault E = None.

(** The container has not exited when [t] seconds are up. *)
Definition timed_out (E : engine) (t : Z) : Prop :=
  match run E with
  | Exits seconds _ => (t < seconds)%Z
  | Hangs => True
  end.

(** The container exits in time with the given status, and its log is
    the given text. *)
Definition completes (E : engine) (t : Z) (status : Z) (text : string) : Prop :=
  (∃ seconds, run E = Exits seconds status ∧ (seconds <= t)%Z) ∧
  logs_reply E = Return (Utf8 text).

#[global] Instance timed_out_dec E t : Decision (timed_out E t).
Proof. unfold timed_out. destruct (run E); apply _. Defined.

(** A container that needs 31 seconds, and one that is done in one
    second after printing what looks like an error report. *)
Definition slow_engine : engine := healthy (Exits 31 0) (Utf8 "").

Definition loud_engine : engine :=
  healthy (Exits 1 0)
          (Utf8 ("ERROR:" +:+ PyStr.nl +:+ "Unexpected error:" +:+ PyStr.nl +:+
                 sample_format_exc timeout_error)).

(** The path [execute_code] stages its script under, given the hex
    digits of the uuid drawn. *)
Definition staged_script (self : executor) (u : string) : Pathlib.Path :=
  Pathlib.joinpath (session_dir self) ("script_" +:+ PyStr.take 8 u +:+ ".py").

(** What the catch-all clause of [execute_code] returns for [e]. *)
Definition unexpected_error (format_exc : exn -> string) (e : exn) : string :=
  "ERROR:" +:+ PyStr.nl +:+ "Unexpected error:" +:+ PyStr.nl +:+ format_exc e.


(** What the wrapper returns for [e]. *)
Definition sandbox_error (format_exc : exn -> string) (e : exn) : string :=
  "SANDBOX ERROR:" +:+ PyStr.nl +:+ format_exc e.

(** The calls of a run that got as far as waiting and then failed:
    no log is fetched. *)
Definition trace_cut_short (self : executor) (u full_script : string)
  : list event :=
  [EvWriteText (staged_script self u) full_script;
   EvCreate (create_args self (Pathlib.name (staged_script self u)));
   EvStart; EvWait (timeout self); EvRemove true;
   EvUnlink (staged_script self u)].

(** The calls of a run that completed. *)
Definition trace_completed (self : executor) (u full_script : string)
  : list event :=
  [EvWriteText (staged_script self u) full_script;
   EvCreate (create_args self (Pathlib.name (staged_script self u)));
   EvStart; EvWait (timeout self); EvLogs; EvRemove true;
   EvUnlink (staged_script self u)].

(** Two engines that differ in the exit status alone. *)
Definition exit_zero : engine := healthy (Exits 1 0) (Utf8 "done").

Definition exit_one : engine := healthy (Exits 1 1) (Utf8 "done").

(** A computation that leaves every dict object as it is. *)
Definition keeps_heap {A : Type} (m : M A) : Prop :=
  ∀ w, heap (snd (m w)) = heap w.

(** The id [sandboxed_python_interpreter] generates in world [w]. *)
Definition fresh_session_id (E : engine) (w : world) : pyvalue :=
  PyStr (uuid_str (uuid_stream E (uuids_drawn w))).

(** ** Trees used to show that the order of imports does not matter *)

Definition tree_torch_flask : node :=
  Node [Import [plain "torch"]; Import [plain "flask"]].

Definition tree_flask_torch_nested : node :=
  Node [Node [Import [plain "flask"; plain "torch"]]; Import [plain "torch"]].

(** ** Session store: [get_session_files] *)

(** [item.is_file()] *)
Definition is_file (n : Pathlib.fsnode) : bool :=
  match n with
  | Pathlib.File _ => true
  | Pathlib.Dir _ => false
  end.

(** [p.rglob('*')] on what [p] leads to: every entry below it, with
    its path relative to [p]; the entries of a directory come
    together, before those of its subdirectories.  The library leaves
    the order within a directory to the host. *)
Fixpoint rglob (prefix : list string) (n : Pathlib.fsnode)
  : list (list string * Pathlib.fsnode) :=
  match n with
  | Pathlib.File _ => []
  | Pathlib.Dir entries =>
      ((fun e : string * Pathlib.fsnode => (prefix ++ [e.1], e.2)) <$> entries) ++
      (fix go (l : list (string * Pathlib.fsnode)) :=
         match l with
         | [] => []
         | (name, child) :: l' => rglob (prefix ++ [name]) child ++ go l'
         end) entries
  end.

(** [get_session_files]: an item's [name] is the last component of its
    relative path. *)
Definition get_session_files (fs : Pathlib.filesystem)
  (session_dir : Pathlib.Path) : list string :=
  if negb (Pathlib.path_exists fs session_dir) then []
  else
    match Pathlib.stat fs session_dir with
    | Some top =>
        omap (fun item : list string * Pathlib.fsnode =>
                if is_file item.2 &&
                   negb (PyStr.startswith (List.last item.1 "") "script_")
                then Some (PyStr.join "/" item.1)
                else None)
             (rglob [] top)
    | None => []
    end.

(** *** File systems as a host presents them *)

(** A name a directory can hold: not empty, not [.] or [..], and
    without a slash. *)
Definition valid_name (s : string) : Prop :=
  s ≠ "" ∧ s ≠ "." ∧ s ≠ ".." ∧ PyStr.split "/" s = [s].

(** No directory holds a name twice, and every name is valid. *)
Fixpoint well_formed (n : Pathlib.fsnode) : bool :=
  match n with
  | Pathlib.File _ => true
  | Pathlib.Dir entries =>
      bool_decide (NoDup entries.*1) &&
      (fix go (l : list (string * Pathlib.fsnode)) : bool :=
         match l with
         | [] => true
         | (name, child) :: l' =>
             bool_decide (valid_name name) && well_formed child && go l'
         end) entries
  end.

(** Following names downwards from a node. *)
Fixpoint lookup_rel (n : Pathlib.fsnode) (rel : list string)
  : option Pathlib.fsnode :=
  match rel with
  | [] => Some n
  | c :: rel' =>
      match n with
      | Pathlib.Dir entries =>
          match Pathlib.entry c entries with
          | Some child => lookup_rel child rel'
          | None => None
          end
      | Pathlib.File _ => None
      end
  end.

(** A session directory that holds a staged script beside two results,
    one of them an image. *)
Definition session_fs : Pathlib.filesystem :=
  Pathlib.mk_fs
    (Pathlib.Dir
       [("tmp", Pathlib.Dir
           [("sandboxes", Pathlib.Dir
               [("alice", Pathlib.Dir
                   [("script_1b4e28ba.py", Pathlib.File (Utf8 "print(1)"));
                    ("out", Pathlib.Dir
                       [("plot.png",
                         Pathlib.File
                           (NotUtf8 "'utf-8' codec can't decode byte 0x89 in position 0: invalid start byte"))]);
                    ("r.txt", Pathlib.File (Utf8 "hi"))])])])])
    [].

(** ** More engines used as examples *)

(** A daemon that lets a client be built from the environment and does
    not answer its ping; no socket file is present. *)
Definition deaf_engine : engine :=
  mk_engine sample_uuids None None
            (Some (error APIError "500 Server Error"))
            (fun _ => false) (fun _ => None) (fun _ => None)
            None None None None (Exits 1 0) None (Return (Utf8 "")) None None None.

(** An engine whose image store does not hold the sandbox image. *)
Definition imageless : engine :=
  mk_engine sample_uuids None None None (fun _ => false) (fun _ => None)
            (fun _ => None)
            (Some (error ImageNotFound "404 Client Error: No such image"))
            None None None (Exits 1 0) None (Return (Utf8 "")) None None None.

(** The image name [__init__] builds from its options. *)
Definition image_of (o : options) : string :=
  opt_image_name o +:+ ":" +:+ opt_image_tag o.

(** What [_ensure_image_exists] raises for a missing image. *)
Definition image_not_found (image : string) : exn :=
  error RuntimeError
        ("Docker image '" +:+ image +:+ "' not found. " +:+
         "Build it with: docker build -f Dockerfile.sandbox -t " +:+
         image +:+ " .").

(** What [__init__] raises when no client could be built. *)
Definition docker_not_available : exn :=
  error RuntimeError "Docker is not available: Could not connect to Docker daemon".

(** A host whose disk is full: the script cannot be staged. *)
Definition full_disk : engine :=
  mk_engine sample_uuids None None None (fun _ => false) (fun _ => None)
            (fun _ => None) None
            (Some (error OSError "[Errno 28] No space left on device"))
            None None (Exits 1 0) None (Return (Utf8 "")) None None None.

(** A host on which the staged script cannot be looked up afterwards. *)
Definition locked_out : engine :=
  mk_engine sample_uuids None None None (fun _ => false) (fun _ => None)
            (fun _ => None) None None None None (Exits 1 0) None
            (Return (Utf8 "done")) None
            (Some (error OSError "[Errno 13] Permission denied")) None.

(** A container whose log is not valid UTF-8. *)
Definition garbled : engine :=
  healthy (Exits 1 0)
          (NotUtf8 "'utf-8' codec can't decode byte 0xff in position 0: invalid start byte").

(** The event is not the creation of a container, or creates it with
    the given arguments. *)
Definition creates_only (cfg : container_config) (ev : event) : Prop :=
  match ev with
  | EvCreate c => c = cfg
  | _ => True
  end.

(** The lines [_prepare_script] puts before and after the user code
    when there is no context to load. *)
Definition script_preamble : list string :=
  ["#!/usr/bin/env python3";
   "# Sandboxed Python execution";
   "import sys";
   "import json";
   "import traceback";
   "";
   "# User code";
   "try:";
   "    # Execute user code"].

Definition script_epilogue : list string :=
  [""; "except Exception as e:";
   "    print('EXECUTION ERROR:', file=sys.stderr)";
   "    traceback.print_exc()";
   "    sys.exit(1)"].

(** ** Faults that [execute_code] can report *)






(** * Properties *)

(** ** Strings *)

Section StringFacts.

Lemma split_nonempty sep s : PyStr.split sep s ≠ [].
Proof.
  destruct s as [|c s]; simpl; [done|].
  destruct (Ascii.eqb c sep); [done|].
  by destruct (PyStr.split sep s).
Qed.

(** The first segment of a dotted name stops at the first dot. *)
Lemma top_level_String c s :
  top_level (String c s) =
  if Ascii.eqb c "." then "" else String c (top_level s).
Proof.
  unfold top_level. simpl.
  destruct (Ascii.eqb c "."); [done|].
  pose proof (split_nonempty "." s).
  by destruct (PyStr.split "." s).
Qed.

Lemma top_level_dotted a rest :
  top_level a = a -> top_level (a +:+ "." +:+ rest) = a.
Proof.
  induction a as [|c a IH]; intros Ha.
  - done.
  - rewrite top_level_String in Ha.
    change (String c a +:+ "." +:+ rest) with (String c (a +:+ "." +:+ rest)).
    rewrite top_level_String.
    destruct (Ascii.eqb c "."); [done|].
    f_equal. apply IH. congruence.
Qed.

Lemma sorted_Sorted l : Sorted String.le (PyStr.sorted l).
Proof. apply (Sorted_merge_sort String.le). Qed.

Lemma sorted_Permutation l : PyStr.sorted l ≡ₚ l.
Proof. apply merge_sort_Permutation. Qed.

(** Sorting is settled by the order alone: any ascending arrangement
    of the same names is the one [sorted] returns. *)
Lemma sorted_unique l l' :
  Sorted String.le l' -> l' ≡ₚ l -> l' = PyStr.sorted l.
Proof.
  intros Hs Hp.
  apply (Sorted_unique String.le); [done|apply sorted_Sorted|].
  by rewrite Hp, sorted_Permutation.
Qed.

Lemma elem_of_sorted_elements (v : gset string) x :
  x ∈ PyStr.sorted (elements v) <-> x ∈ v.
Proof. by rewrite sorted_Permutation, elem_of_elements. Qed.

Lemma NoDup_sorted_elements (v : gset string) :
  NoDup (PyStr.sorted (elements v)).
Proof. rewrite sorted_Permutation. apply NoDup_elements. Qed.

End StringFacts.

(** ** The walk visits every node once *)

Section Walk.

Lemma alias_nodes_all_nodes names :
  (AliasNode <$> names) ≫= all_nodes = AliasNode <$> names.
Proof.
  induction names as [|a names IH]; [done|].
  rewrite fmap_cons, bind_cons, IH. done.
Qed.

Lemma all_nodes_children n :
  all_nodes n = n :: (iter_child_nodes n ≫= all_nodes).
Proof.
  destruct n as [names|m names lv|a|children]; cbn [iter_child_nodes].
  - by rewrite alias_nodes_all_nodes.
  - by rewrite alias_nodes_all_nodes.
  - done.
  - reflexivity.
Qed.

Lemma alias_nodes_size names :
  queue_size (AliasNode <$> names) = length names.
Proof.
  induction names as [|a names IH]; [done|].
  rewrite fmap_cons. unfold queue_size in *. cbn [foldr node_size length].
  by rewrite IH.
Qed.

Lemma node_size_children n :
  node_size n = S (queue_size (iter_child_nodes n)).
Proof.
  destruct n as [names|m names lv|a|children]; cbn [iter_child_nodes].
  - by rewrite alias_nodes_size.
  - by rewrite alias_nodes_size.
  - done.
  - reflexivity.
Qed.

Lemma queue_size_app l1 l2 :
  queue_size (l1 ++ l2) = queue_size l1 + queue_size l2.
Proof.
  unfold queue_size. induction l1 as [|n l1 IH]; simpl; [done|].
  rewrite IH. lia.
Qed.

(** With one unit of fuel per node in and below the queue, the loop
    yields each of those nodes exactly once. *)
Lemma walk_queue_all_nodes fuel todo :
  queue_size todo <= fuel ->
  walk_queue fuel todo ≡ₚ todo ≫= all_nodes.
Proof.
  revert todo. induction fuel as [|fuel IH]; intros todo Hfuel.
  - destruct todo as [|n rest]; [done|].
    exfalso. simpl in Hfuel. rewrite node_size_children in Hfuel. lia.
  - destruct todo as [|n rest]; [done|].
    simpl in *. rewrite node_size_children in Hfuel.
    rewrite IH by (rewrite queue_size_app; lia).
    rewrite (all_nodes_children n), bind_app. simpl.
    constructor. apply Permutation_app_comm.
Qed.

Lemma walk_all_nodes tree : walk tree ≡ₚ all_nodes tree.
Proof.
  unfold walk. rewrite walk_queue_all_nodes.
  - simpl. by rewrite app_nil_r.
  - simpl. lia.
Qed.

End Walk.

(** ** The violation set *)

Section Violations.

Lemma elem_of_foldl_check_alias acc names x :
  x ∈ foldl check_alias acc names <->
  x ∈ acc ∨ (x ∈ alias_name <$> names ∧ top_level x ∉ ALLOWED_LIBRARIES).
Proof.
  revert acc. induction names as [|a names IH]; intros acc; simpl.
  - rewrite elem_of_nil. tauto.
  - rewrite IH, elem_of_cons. unfold check_alias.
    destruct (decide (top_level (alias_name a) ∈ ALLOWED_LIBRARIES)) as [Hin|Hout].
    + naive_solver.
    + rewrite elem_of_union, elem_of_singleton. naive_solver.
Qed.

Lemma elem_of_check_node acc n x :
  x ∈ check_node acc n <->
  x ∈ acc ∨ (x ∈ named_modules n ∧ top_level x ∉ ALLOWED_LIBRARIES).
Proof.
  destruct n as [names|[m|] names lv|a|children]; simpl;
    try (rewrite elem_of_nil; tauto).
  - apply elem_of_foldl_check_alias.
  - destruct (PyStr.truthy m); [|rewrite elem_of_nil; tauto].
    rewrite list_elem_of_singleton.
    destruct (decide (top_level m ∈ ALLOWED_LIBRARIES)) as [Hin|Hout].
    + naive_solver.
    + rewrite elem_of_union, elem_of_singleton. naive_solver.
Qed.

Lemma elem_of_foldl_check_node acc l x :
  x ∈ foldl check_node acc l <->
  x ∈ acc ∨ (x ∈ l ≫= named_modules ∧ top_level x ∉ ALLOWED_LIBRARIES).
Proof.
  revert acc. induction l as [|n l IH]; intros acc; simpl.
  - rewrite elem_of_nil. tauto.
  - rewrite IH, elem_of_check_node, elem_of_app. tauto.
Qed.

(** A name is in the set exactly when some import statement of the
    tree names it and its first segment is not allowed. *)
Lemma elem_of_disallowed_imports tree x :
  x ∈ disallowed_imports tree <->
  x ∈ imported_modules tree ∧ top_level x ∉ ALLOWED_LIBRARIES.
Proof.
  unfold disallowed_imports, imported_modules.
  rewrite elem_of_foldl_check_node, elem_of_empty.
  rewrite (walk_all_nodes tree). tauto.
Qed.

Lemma disallowed_imports_empty tree :
  disallowed_imports tree = ∅ <->
  ∀ m, m ∈ imported_modules tree -> top_level m ∈ ALLOWED_LIBRARIES.
Proof.
  split.
  - intros Hempty m Hm.
    destruct (decide (top_level m ∈ ALLOWED_LIBRARIES)) as [|Hout]; [done|].
    assert (m ∈ disallowed_imports tree) as Hin
      by by apply elem_of_disallowed_imports.
    rewrite Hempty in Hin. by apply elem_of_empty in Hin.
  - intros Hall. apply set_eq. intros x.
    rewrite elem_of_disallowed_imports, elem_of_empty. naive_solver.
Qed.

End Violations.

(** ** Trees without their bare relative imports *)

Section Prune.

Lemma node_ind (P : node -> Prop) :
  (∀ names, P (Import names)) ->
  (∀ m names lv, P (ImportFrom m names lv)) ->
  (∀ a, P (AliasNode a)) ->
  (∀ children, Forall P children -> P (Node children)) ->
  ∀ n, P n.
Proof.
  intros HI HF HA HN. fix IH 1.
  intros [names|m names lv|a|children]; [apply HI|apply HF|apply HA|].
  apply HN. induction children as [|c children IHc]; constructor.
  - apply IH.
  - apply IHc.
Qed.

Lemma bind_nil_all {A B} (f : A -> list B) (l : list A) :
  (∀ x, x ∈ l -> f x = []) -> l ≫= f = [].
Proof.
  induction l as [|x l IH]; intros Hall; [done|].
  rewrite bind_cons, Hall, IH; [done| |apply list_elem_of_here].
  intros y Hy. apply Hall. by apply list_elem_of_further.
Qed.

Lemma bind_bind {A B C} (f : A -> list B) (g : B -> list C) (l : list A) :
  (l ≫= f) ≫= g = l ≫= (fun x => f x ≫= g).
Proof.
  induction l as [|x l IH]; [done|].
  by rewrite !bind_cons, bind_app, IH.
Qed.

Lemma imported_modules_Node children :
  imported_modules (Node children) = children ≫= imported_modules.
Proof.
  unfold imported_modules at 1. rewrite all_nodes_children.
  cbn [iter_child_nodes]. rewrite bind_cons, bind_bind. done.
Qed.

Lemma imported_modules_bare c :
  bare_relative c = true -> imported_modules c = [].
Proof.
  destruct c as [names|[m|] names lv|a|children]; try done. intros _.
  unfold imported_modules. rewrite all_nodes_children.
  cbn [iter_child_nodes]. rewrite alias_nodes_all_nodes, bind_cons.
  cbn [named_modules app].
  apply bind_nil_all. intros n [a [-> _]]%list_elem_of_fmap. done.
Qed.

Lemma imported_modules_prune tree :
  imported_modules (prune tree) = imported_modules tree.
Proof.
  induction tree as [names|m names lv|a|children IH] using node_ind; try done.
  cbn [prune]. rewrite !imported_modules_Node.
  induction IH as [|c children Hc _ IHchildren]; [done|].
  rewrite bind_cons. destruct (bare_relative c) eqn:Hbare.
  - by rewrite IHchildren, (imported_modules_bare c).
  - by rewrite bind_cons, Hc, IHchildren.
Qed.

Lemma disallowed_imports_prune tree :
  disallowed_imports (prune tree) = disallowed_imports tree.
Proof.
  apply set_eq. intros x.
  by rewrite !elem_of_disallowed_imports, imported_modules_prune.
Qed.

Lemma verdict_prune summary tree :
  verdict summary (prune tree) = verdict summary tree.
Proof. unfold verdict. by rewrite disallowed_imports_prune. Qed.

Lemma imported_modules_only_bare tree :
  (∀ n, n ∈ all_nodes tree -> is_import n = true -> bare_relative n = true) ->
  imported_modules tree = [].
Proof.
  intros Hbare. apply bind_nil_all. intros n Hn.
  specialize (Hbare n Hn).
  destruct n as [names|[m|] names lv|a|children]; try done;
    by specialize (Hbare eq_refl).
Qed.

End Prune.

(** ** The verdict *)

Section Verdict.

Lemma append_empty_r s : s +:+ "" = s.
Proof.
  induction s as [|c s IH]; [done|].
  change (String c (s +:+ "") = String c s). by f_equal.
Qed.

Lemma verdict_accept summary tree :
  (∀ m, m ∈ imported_modules tree -> top_level m ∈ ALLOWED_LIBRARIES) ->
  verdict summary tree = (true, "").
Proof.
  intros Hall%disallowed_imports_empty. unfold verdict.
  by destruct (decide (disallowed_imports tree = ∅)).
Qed.

Lemma verdict_reject summary tree m :
  m ∈ imported_modules tree -> top_level m ∉ ALLOWED_LIBRARIES ->
  verdict summary tree =
  (false, violation_prefix +:+ listed (disallowed_imports tree) +:+ summary).
Proof.
  intros Hm Hout. unfold verdict.
  destruct (decide (disallowed_imports tree = ∅)) as [Hempty|]; [|done].
  exfalso. rewrite disallowed_imports_empty in Hempty. by apply Hout, Hempty.
Qed.

End Verdict.

(** ** Claims about the policy gate *)

(** C2, as the code has it: a snippet that imports at least one module
    whose first segment is not in the allow-list is rejected by both
    copies of [validate_imports]; the violation set holds the module
    paths as written in the import statements, dotted ones in full,
    whose first segment is not allowed, each once; the message lists
    them in ascending order, separated by a comma and a space. *)
Theorem violations_are_full_names ast_parse code tree :
  ast_parse code = inr tree ->
  (∃ m, m ∈ imported_modules tree ∧ top_level m ∉ ALLOWED_LIBRARIES) ->
  let names := PyStr.sorted (elements (disallowed_imports tree)) in
  validate_imports ast_parse code =
    (false, violation_prefix +:+ PyStr.join ", " names)
  ∧ demo_validate_imports ast_parse code =
    (false, violation_prefix +:+ PyStr.join ", " names +:+ demo_summary)
  ∧ (∀ x, x ∈ disallowed_imports tree <->
          x ∈ imported_modules tree ∧ top_level x ∉ ALLOWED_LIBRARIES)
  ∧ Sorted String.le names
  ∧ NoDup names
  ∧ (∀ x, x ∈ names <-> x ∈ disallowed_imports tree).
Proof.
  intros Hparse (m & Hm & Hout) names.
  unfold validate_imports, demo_validate_imports, validate_imports_with.
  rewrite Hparse, !(verdict_reject _ tree m Hm Hout), append_empty_r.
  split_and!.
  - done.
  - done.
  - intros x. apply elem_of_disallowed_imports.
  - apply sorted_Sorted.
  - apply NoDup_sorted_elements.
  - intros x. apply elem_of_sorted_elements.
Qed.

(** C2, an instance: [import json] followed by [import torch]. *)
Lemma violations_are_full_names_witness :
  validate_imports sample_parse ("import json" +:+ PyStr.nl +:+ "import torch") =
    (false, violation_prefix +:+ "torch")
  ∧ disallowed_imports tree_json_torch = {[ "torch" ]}.
Proof.
  destruct (violations_are_full_names sample_parse
              ("import json" +:+ PyStr.nl +:+ "import torch") tree_json_torch)
    as (Hv & _).
  - vm_compute. reflexivity.
  - exists "torch". split.
    + apply (bool_decide_unpack _). vm_compute. exact I.
    + apply (bool_decide_unpack _). vm_compute. exact I.
  - split.
    + rewrite Hv. vm_compute. reflexivity.
    + apply (bool_decide_unpack _). vm_compute. exact I.
Defined.

(** C2, as worded, fails: for [import requests.adapters] the violation
    set is the dotted path, not the top-level name [requests]. *)
Lemma violations_top_level_counterexample :
  sample_parse "import requests.adapters" = inr (tree_import "requests.adapters")
  ∧ imported_modules (tree_import "requests.adapters") = ["requests.adapters"]
  ∧ disallowed_imports (tree_import "requests.adapters") = {[ "requests.adapters" ]}
  ∧ disallowed_top_level (tree_import "requests.adapters") = {[ "requests" ]}
  ∧ disallowed_imports (tree_import "requests.adapters")
    ≠ disallowed_top_level (tree_import "requests.adapters")
  ∧ validate_imports sample_parse "import requests.adapters" =
    (false, violation_prefix +:+ "requests.adapters").
Proof.
  repeat split; try (vm_compute; reflexivity);
    apply (bool_decide_unpack _); vm_compute; exact I.
Qed.

(** C5: when the first segment of every imported module path is in
    the allow-list, the violation set is empty and both copies of
    [validate_imports] accept with an empty message. *)
Theorem allowed_imports_accepted ast_parse code tree :
  ast_parse code = inr tree ->
  (∀ m, m ∈ imported_modules tree -> top_level m ∈ ALLOWED_LIBRARIES) ->
  disallowed_imports tree = ∅
  ∧ validate_imports ast_parse code = (true, "")
  ∧ demo_validate_imports ast_parse code = (true, "").
Proof.
  intros Hparse Hall.
  unfold validate_imports, demo_validate_imports, validate_imports_with.
  rewrite Hparse, !(verdict_accept _ tree Hall).
  split_and!; try done. by apply disallowed_imports_empty.
Qed.

(** C5, an instance: [from scipy.stats import norm] is judged by
    [scipy] alone. *)
Lemma allowed_imports_accepted_witness :
  imported_modules tree_from_scipy_stats = ["scipy.stats"]
  ∧ top_level "scipy.stats" = "scipy"
  ∧ ("stats" ∉ ALLOWED_LIBRARIES)
  ∧ validate_imports sample_parse "from scipy.stats import norm" = (true, "")
  ∧ demo_validate_imports sample_parse "from scipy.stats import norm" = (true, "").
Proof.
  destruct (allowed_imports_accepted sample_parse
              "from scipy.stats import norm" tree_from_scipy_stats)
    as (_ & Htest & Hdemo).
  - vm_compute. reflexivity.
  - intros m Hm. apply (bool_decide_unpack _).
    change (imported_modules tree_from_scipy_stats) with ["scipy.stats"] in Hm.
    apply list_elem_of_singleton in Hm. subst m. vm_compute. exact I.
  - split_and!;
      first [done | apply (bool_decide_unpack _); vm_compute; exact I].
Defined.

(** C7: a [from . import y] statement leaves the violation set as it
    was; deleting every such statement from a snippet changes neither
    the set nor the verdict; and a snippet whose only import
    statements are of that kind is accepted. *)
Theorem bare_relative_import_skipped :
  (∀ acc names level, check_node acc (ImportFrom None names level) = acc)
  ∧ (∀ tree, disallowed_imports (prune tree) = disallowed_imports tree)
  ∧ (∀ summary tree, verdict summary (prune tree) = verdict summary tree)
  ∧ (∀ ast_parse code tree,
       ast_parse code = inr tree ->
       (∀ n, n ∈ all_nodes tree -> is_import n = true -> bare_relative n = true) ->
       validate_imports ast_parse code = (true, "")
       ∧ demo_validate_imports ast_parse code = (true, ""))
  ∧ validate_imports sample_parse "from . import y" = (true, "").
Proof.
  split_and!.
  - done.
  - apply disallowed_imports_prune.
  - apply verdict_prune.
  - intros ast_parse code tree Hparse Hbare%imported_modules_only_bare.
    unfold validate_imports, demo_validate_imports, validate_imports_with.
    rewrite Hparse, !verdict_accept; [done | |];
      rewrite Hbare; by intros m ?%elem_of_nil.
  - vm_compute. reflexivity.
Qed.

(** C8: when the parse raises a [SyntaxError], both copies of
    [validate_imports] reject with the message
    [Syntax error in code: ] followed by the error's text, which is
    not an import violation message. *)
Theorem syntax_error_rejected ast_parse code e :
  ast_parse code = inl e ->
  validate_imports ast_parse code = (false, "Syntax error in code: " +:+ e)
  ∧ demo_validate_imports ast_parse code = (false, "Syntax error in code: " +:+ e)
  ∧ PyStr.startswith (snd (validate_imports ast_parse code)) violation_prefix = false
  ∧ PyStr.startswith (snd (demo_validate_imports ast_parse code)) violation_prefix = false.
Proof.
  intros Hparse.
  unfold validate_imports, demo_validate_imports, validate_imports_with.
  rewrite Hparse. split_and!; done.
Qed.

(** C8, an instance: a lone [import] keyword. *)
Lemma syntax_error_rejected_witness :
  validate_imports sample_parse "import" =
  (false, "Syntax error in code: invalid syntax (<unknown>, line 1)").
Proof.
  destruct (syntax_error_rejected sample_parse "import"
              "invalid syntax (<unknown>, line 1)") as (Htest & _).
  - vm_compute. reflexivity.
  - rewrite Htest. vm_compute. reflexivity.
Defined.

(** C9: the alias names [np], [pd], [plt] and the distribution names
    [scikit-learn], [python-docx], [python-pptx], [python-magic] are
    members of the allow-list, so [import np], [import pd] and
    [import plt] are accepted with an empty violation set. *)
Theorem alias_names_allowed :
  "np" ∈ ALLOWED_LIBRARIES ∧ "pd" ∈ ALLOWED_LIBRARIES ∧ "plt" ∈ ALLOWED_LIBRARIES
  ∧ "scikit-learn" ∈ ALLOWED_LIBRARIES ∧ "python-docx" ∈ ALLOWED_LIBRARIES
  ∧ "python-pptx" ∈ ALLOWED_LIBRARIES ∧ "python-magic" ∈ ALLOWED_LIBRARIES
  ∧ disallowed_imports (tree_import "np") = ∅
  ∧ disallowed_imports (tree_import "pd") = ∅
  ∧ disallowed_imports (tree_import "plt") = ∅
  ∧ validate_imports sample_parse "import np" = (true, "")
  ∧ validate_imports sample_parse "import pd" = (true, "")
  ∧ validate_imports sample_parse "import plt" = (true, "")
  ∧ demo_validate_imports sample_parse "import np" = (true, "")
  ∧ demo_validate_imports sample_parse "import pd" = (true, "")
  ∧ demo_validate_imports sample_parse "import plt" = (true, "").
Proof.
  split_and!; try (vm_compute; reflexivity);
    apply (bool_decide_unpack _); vm_compute; exact I.
Qed.

(** ** Claims about the session store *)

Section SessionStore.

Import Pathlib.

(** A relative file name, whatever [..] it holds, always passes the
    [is_relative_to] test: the joined path starts with the components
    of the session directory. *)
Lemma joinpath_relative_is_relative_to dir filename :
  root_of filename = Relative ->
  is_relative_to (joinpath dir filename) dir = true.
Proof.
  intros Hrel. unfold joinpath, is_relative_to. cbn [of_string path_root].
  rewrite Hrel. cbn [path_root parts]. apply bool_decide_eq_true.
  split; [done|]. by eexists.
Qed.

Lemma read_session_file_relative_never_ValueError fs dir filename e :
  root_of filename = Relative ->
  read_session_file fs dir filename = Raise e ->
  exn_class e ≠ ValueError.
Proof.
  intros Hrel. unfold read_session_file.
  rewrite (joinpath_relative_is_relative_to dir filename Hrel).
  destruct (path_exists fs (joinpath dir filename)); cbn [negb].
  - unfold read_text.
    destruct (stat fs (joinpath dir filename)) as [[[?|?]|?]|]; cbn;
      intros [= <-]; done.
  - intros [= <-]. done.
Qed.

(** An absent file is reported as not found, wherever the path leads. *)
Lemma read_session_file_absent fs dir filename :
  path_exists fs (joinpath dir filename) = false ->
  read_session_file fs dir filename =
  Raise (error FileNotFoundError ("File not found: " +:+ filename)).
Proof. intros Habsent. unfold read_session_file. by rewrite Habsent. Qed.

(** An existing file whose joined path does not start with the
    components of the session directory is refused. *)
Lemma read_session_file_refused fs dir filename :
  path_exists fs (joinpath dir filename) = true ->
  is_relative_to (joinpath dir filename) dir = false ->
  read_session_file fs dir filename =
  Raise (error ValueError "Path traversal attempt detected").
Proof.
  intros Hexists Hout. unfold read_session_file. by rewrite Hexists, Hout.
Qed.

End SessionStore.

(** C1, where the code departs from it: in a session directory
    /tmp/sandboxes/alice, the relative name [../bob/secret.txt]
    resolves to a file of another session, outside the directory, and
    [read_session_file] returns its content; no relative name is ever
    refused as a traversal.  Absolute names and absent files behave as
    the claim says. *)
Theorem read_session_file_follows_dotdot :
  Pathlib.root_of "../bob/secret.txt" = Pathlib.Relative
  ∧ Pathlib.resolve sample_fs (Pathlib.joinpath alice_dir "../bob/secret.txt")
    = ["tmp"; "sandboxes"; "bob"; "secret.txt"]
  ∧ Pathlib.resolve sample_fs alice_dir = ["tmp"; "sandboxes"; "alice"]
  ∧ ¬ Pathlib.contained_in sample_fs
        (Pathlib.joinpath alice_dir "../bob/secret.txt") alice_dir
  ∧ read_session_file sample_fs alice_dir "../bob/secret.txt" = Return "bob's data"
  ∧ read_session_file sample_fs alice_dir "../../../etc/passwd" = Return "root:x:0:0"
  ∧ (∀ fs dir filename e,
       Pathlib.root_of filename = Pathlib.Relative ->
       read_session_file fs dir filename = Raise e ->
       exn_class e ≠ ValueError)
  ∧ read_session_file sample_fs alice_dir "/etc/passwd"
    = Raise (error ValueError "Path traversal attempt detected")
  ∧ read_session_file sample_fs alice_dir "../carol/x"
    = Raise (error FileNotFoundError "File not found: ../carol/x")
  ∧ read_session_file sample_fs alice_dir "r.txt" = Return "hi".
Proof.
  split_and!; try (vm_compute; reflexivity).
  - unfold Pathlib.contained_in.
    apply (bool_decide_unpack _). vm_compute. exact I.
  - apply read_session_file_relative_never_ValueError.
Qed.

(** ** The monad *)

Section Monad.

Context {A B : Type}.

Lemma bind_Return (m : M A) (f : A -> M B) w a w1 :
  m w = (Return a, w1) -> (m ≫= f) w = f a w1.
Proof. intros H. unfold mbind, M_bind. by rewrite H. Qed.

Lemma bind_Raise (m : M A) (f : A -> M B) w e w1 :
  m w = (Raise e, w1) -> (m ≫= f) w = (Raise e, w1).
Proof. intros H. unfold mbind, M_bind. by rewrite H. Qed.





End Monad.

(** ** Computations that leave the dict objects alone *)

Section Frame.

Context {A B : Type}.

Lemma keeps_heap_ret (a : A) : keeps_heap (mret a : M A).
Proof. done. Qed.

Lemma keeps_heap_raise (e : exn) : keeps_heap (raise e : M A).
Proof. done. Qed.

Lemma keeps_heap_read (f : world -> A) : keeps_heap (read f).
Proof. done. Qed.

Lemma keeps_heap_modify (f : world -> world) :
  (∀ w, heap (f w) = heap w) -> keeps_heap (modify f).
Proof. intros Hf w. apply Hf. Qed.

Lemma keeps_heap_bind (m : M A) (f : A -> M B) :
  keeps_heap m -> (∀ a, keeps_heap (f a)) -> keeps_heap (m ≫= f).
Proof.
  intros Hm Hf w. unfold mbind, M_bind. specialize (Hm w).
  destruct (m w) as [[a|e] w1]; cbn in *; [|done].
  by rewrite Hf.
Qed.

Lemma keeps_heap_try_except (body : M A) (handler : exn -> M A) :
  keeps_heap body -> (∀ e, keeps_heap (handler e)) ->
  keeps_heap (try_except body handler).
Proof.
  intros Hm Hh w. unfold try_except. specialize (Hm w).
  destruct (body w) as [[a|e] w1]; cbn in *; [done|].
  by rewrite Hh.
Qed.

Lemma keeps_heap_try_finally (body : M A) (cleanup : M unit) :
  keeps_heap body -> keeps_heap cleanup ->
  keeps_heap (try_finally body cleanup).
Proof.
  intros Hm Hc w. unfold try_finally. specialize (Hm w).
  destruct (body w) as [r w1]. specialize (Hc w1).
  destruct (cleanup w1) as [[[]|e] w2]; cbn in *; congruence.
Qed.

Lemma keeps_heap_attempt (fault : option exn) (f : world -> world) :
  (∀ w, heap (f w) = heap w) -> keeps_heap (attempt fault f).
Proof.
  intros Hf w. destruct fault as [e|]; cbn; [done|apply Hf].
Qed.

End Frame.

Create HintDb frame.

#[local] Hint Resolve keeps_heap_ret keeps_heap_raise keeps_heap_read
  keeps_heap_modify keeps_heap_bind keeps_heap_try_except
  keeps_heap_try_finally keeps_heap_attempt : frame.

(** ** What [execute_code] returns *)

Section ExecutorFacts.

Variable format_exc : exn -> string.
Variable repr : gmap string pyvalue -> string.

Ltac run_code :=
  unfold execute_code, container_wait, container_logs, remove_quietly,
    cleanup_script, uuid4, attempt;
  unfold try_finally, try_except, mbind, M_bind, mret, M_ret, modify, read, raise.

Lemma staged_script_present (x : string) (s : gset string) :
  bool_decide (x ∈ s ∪ {[ x ]}) = true.
Proof. apply bool_decide_eq_true. set_solver. Qed.

(** C4, as the code has it: when nothing faults, the container exits
    within the timeout and its log is valid UTF-8, [execute_code]
    returns exactly the decoded log, whatever the exit status; the
    status read from [wait] is not part of what is returned. *)
Theorem completed_run_returns_log E self code context w status text :
  undisturbed E -> completes E (timeout self) status text ->
  ∃ w',
    execute_code format_exc repr E self code context w = (Return text, w')
    ∧ trace w' = trace w ++
        trace_completed self (uuid_stream E (uuids_drawn w))
                        (_prepare_script repr code context)
    ∧ (remove_fault E = None -> containers w' = containers w).
Proof.
  intros (Hwrite & Hcreate & Hstart & Hwait & Hexists)
         [(seconds & Hrun & Hle%Z.leb_le) Hlogs].
  run_code. rewrite Hwrite, Hcreate, Hstart, Hwait, Hexists, Hrun, Hlogs.
  cbn. rewrite Hle.
  destruct (remove_fault E), (unlink_fault E); cbn;
    rewrite staged_script_present; cbn;
    (eexists; split_and!; [reflexivity | | ]); cbn;
    rewrite <- ?app_assoc; try done.
Qed.

(** C3, as the code has it: when nothing else faults and the container
    has not exited when the timeout is up, [execute_code] raises
    nothing and returns what its catch-all clause builds from the
    timeout exception, [ERROR:], [Unexpected error:] and the
    traceback, which is not the text of the [ContainerError] clause;
    the log is never fetched; removal of the container is attempted
    with [force=True] before the return, and the container is gone
    exactly when that removal does not fault. *)
Theorem timed_out_run_returns_unexpected_error E self code context w :
  undisturbed E -> timed_out E (timeout self) ->
  ∃ w',
    execute_code format_exc repr E self code context w
      = (Return (unexpected_error format_exc timeout_error), w')
    ∧ PyStr.startswith (unexpected_error format_exc timeout_error)
                       "EXECUTION ERROR:" = false
    ∧ trace w' = trace w ++
        trace_cut_short self (uuid_stream E (uuids_drawn w))
                        (_prepare_script repr code context)
    ∧ (remove_fault E = None -> containers w' = containers w)
    ∧ (is_Some (remove_fault E) -> containers w' = S (containers w)).
Proof.
  intros (Hwrite & Hcreate & Hstart & Hwait & Hexists) Hslow.
  assert (container_wait E (timeout self) =
          (modify (log_event (EvWait (timeout self)));; raise timeout_error))
    as Hw.
  { unfold container_wait, timed_out in *. rewrite Hwait.
    destruct (run E) as [seconds status|]; [|done].
    apply Z.leb_gt in Hslow. by rewrite Hslow. }
  unfold execute_code. rewrite Hw. clear Hw.
  unfold container_logs, remove_quietly, cleanup_script, uuid4, attempt.
  unfold try_finally, try_except, mbind, M_bind, mret, M_ret, modify, read, raise.
  rewrite Hwrite, Hcreate, Hstart, Hexists. cbn.
  destruct (remove_fault E) as [e|], (unlink_fault E); cbn;
    rewrite staged_script_present; cbn;
    (eexists; split_and!; [reflexivity | vm_compute; reflexivity | | | ]); cbn;
    rewrite <- ?app_assoc; try done;
    first [by intros [? [=]] | by intros _].
Qed.

End ExecutorFacts.

(** C4, an instance: a container that prints [done] and exits with
    status 1 after one second. *)
Lemma completed_run_returns_log_witness :
  ∃ w',
    execute_code sample_format_exc sample_repr exit_one alice "print('done')"
                 None empty_world = (Return "done", w')
    ∧ containers w' = 0.
Proof.
  destruct (completed_run_returns_log sample_format_exc sample_repr exit_one
              alice "print('done')" None empty_world 1 "done")
    as (w' & Hrun & _ & Hgone).
  - vm_compute. split_and!; reflexivity.
  - split; [exists 1%Z; split; [reflexivity | vm_compute; discriminate]
           | reflexivity].
  - exists w'. split; [exact Hrun | exact (Hgone eq_refl)].
Defined.

(** C4, as worded, fails: two runs that differ in the exit status
    alone, 0 against 1, return the same value and leave the same
    world, so the status cannot be read off the result; and the
    result is the bare log text. *)
Lemma exit_code_counterexample :
  undisturbed exit_zero ∧ undisturbed exit_one
  ∧ completes exit_zero (timeout alice) 0 "done"
  ∧ completes exit_one (timeout alice) 1 "done"
  ∧ execute_code sample_format_exc sample_repr exit_zero alice
                 "print('done')" None empty_world
    = execute_code sample_format_exc sample_repr exit_one alice
                   "print('done')" None empty_world
  ∧ fst (execute_code sample_format_exc sample_repr exit_one alice
                      "print('done')" None empty_world) = Return "done".
Proof.
  split_and!.
  - vm_compute. split_and!; reflexivity.
  - vm_compute. split_and!; reflexivity.
  - split; [exists 1%Z; split; [reflexivity | vm_compute; discriminate]
           | reflexivity].
  - split; [exists 1%Z; split; [reflexivity | vm_compute; discriminate]
           | reflexivity].
  - vm_compute. reflexivity.
  - vm_compute. reflexivity.
Qed.

(** C3, an instance: a container that needs 31 seconds under a
    timeout of 30. *)
Lemma timed_out_run_returns_unexpected_error_witness :
  ∃ w',
    execute_code sample_format_exc sample_repr slow_engine alice
                 "import time; time.sleep(31)" None empty_world
      = (Return (unexpected_error sample_format_exc timeout_error), w')
    ∧ containers w' = 0.
Proof.
  destruct (timed_out_run_returns_unexpected_error sample_format_exc
              sample_repr slow_engine alice "import time; time.sleep(31)"
              None empty_world)
    as (w' & Hrun & _ & _ & Hgone & _).
  - vm_compute. split_and!; reflexivity.
  - vm_compute. reflexivity.
  - exists w'. split; [exact Hrun | exact (Hgone eq_refl)].
Defined.

(** C3, as worded, fails: a run that timed out and a run that
    completed in one second with exit status 0 return the same value,
    the text of the catch-all clause, so no function of the result
    tells a timeout from a success: the result carries no status. *)
Lemma timeout_status_counterexample :
  undisturbed slow_engine ∧ timed_out slow_engine (timeout alice)
  ∧ undisturbed loud_engine
  ∧ completes loud_engine (timeout alice) 0
              (unexpected_error sample_format_exc timeout_error)
  ∧ fst (execute_code sample_format_exc sample_repr slow_engine alice
                      "import time; time.sleep(31)" None empty_world)
    = Return (unexpected_error sample_format_exc timeout_error)
  ∧ fst (execute_code sample_format_exc sample_repr slow_engine alice
                      "import time; time.sleep(31)" None empty_world)
    = fst (execute_code sample_format_exc sample_repr loud_engine alice
                        "print('ERROR:')" None empty_world)
  ∧ ¬ (∃ is_timeout : result string -> bool,
         is_timeout (fst (execute_code sample_format_exc sample_repr
                            slow_engine alice "import time; time.sleep(31)"
                            None empty_world)) = true
         ∧ is_timeout (fst (execute_code sample_format_exc sample_repr
                              loud_engine alice "print('ERROR:')"
                              None empty_world)) = false).
Proof.
  assert (fst (execute_code sample_format_exc sample_repr slow_engine alice
                 "import time; time.sleep(31)" None empty_world)
          = fst (execute_code sample_format_exc sample_repr loud_engine alice
                   "print('ERROR:')" None empty_world)) as Hsame
    by (vm_compute; reflexivity).
  split_and!.
  - vm_compute. split_and!; reflexivity.
  - vm_compute. reflexivity.
  - vm_compute. split_and!; reflexivity.
  - split; [exists 1%Z; split; [reflexivity | vm_compute; discriminate]
           | reflexivity].
  - vm_compute. reflexivity.
  - exact Hsame.
  - intros (is_timeout & Hslow & Hloud). rewrite Hsame in Hslow. congruence.
Qed.

(** ** The wrapper always returns *)

Section Interpreter.

Variable format_exc : exn -> string.
Variable repr : gmap string pyvalue -> string.
Variable E : engine.

Lemma uuid4_returns w :
  uuid4 E w = (Return (uuid_stream E (uuids_drawn w)),
               set_uuids_drawn (S (uuids_drawn w)) w).
Proof. reflexivity. Qed.

Lemma resolve_session_id_returns context sid w :
  ∃ v w1, resolve_session_id E context sid w = (Return v, w1).
Proof.
  destruct sid as [s|]; cbn; [by eauto|].
  unfold resolve_session_id, dict_get, dict_set, deref, uuid4.
  unfold mbind, M_bind, mret, M_ret, modify, read. cbn.
  destruct (default PyNone (default ∅ (heap w !! context) !! "__sandbox_session_id__"));
    cbn; eauto.
Qed.




End Interpreter.


(** ** The session id kept in the context dict *)

Section SessionId.

Variable format_exc : exn -> string.
Variable repr : gmap string pyvalue -> string.
Variable E : engine.

Lemma keeps_heap_uuid4 : keeps_heap (uuid4 E).
Proof. done. Qed.

Lemma keeps_heap_init sid o : keeps_heap (init E sid o).
Proof.
  unfold init, init_client, _ensure_image_exists.
  repeat first
    [ apply keeps_heap_bind; [|intros ?]
    | apply keeps_heap_try_except; [|intros ?]
    | apply keeps_heap_attempt; done
    | apply keeps_heap_uuid4
    | apply keeps_heap_ret
    | apply keeps_heap_raise
    | match goal with
      | |- keeps_heap (match ?x with _ => _ end) => destruct x
      | |- keeps_heap (if ?x then _ else _) => destruct x
      end ].
Qed.

Lemma keeps_heap_execute_code self code context :
  keeps_heap (execute_code format_exc repr E self code context).
Proof.
  unfold execute_code, execute_code_handler, cleanup_script, remove_quietly,
    container_logs, container_wait.
  repeat first
    [ apply keeps_heap_bind; [|intros ?]
    | apply keeps_heap_try_except; [|intros ?]
    | apply keeps_heap_try_finally
    | apply keeps_heap_attempt; done
    | apply keeps_heap_modify; done
    | apply keeps_heap_read
    | apply keeps_heap_uuid4
    | apply keeps_heap_ret
    | apply keeps_heap_raise
    | match goal with
      | |- keeps_heap (match ?x with _ => _ end) => destruct x
      | |- keeps_heap (if ?x then _ else _) => destruct x
      end ].
Qed.

(** Once the session id is settled, the rest of the wrapper leaves
    every dict as it is. *)
Lemma keeps_heap_run sid code context o :
  keeps_heap
    (try_except
       (self ← init E sid o; d ← deref context;
        execute_code format_exc repr E self code (Some d))
       (fun e => mret (sandbox_error format_exc e))).
Proof.
  apply keeps_heap_try_except; [|intros ?; apply keeps_heap_ret].
  apply keeps_heap_bind; [apply keeps_heap_init|intros self].
  apply keeps_heap_bind; [apply keeps_heap_read|intros d].
  apply keeps_heap_execute_code.
Qed.

Lemma resolve_session_id_fresh context w d :
  heap w !! context = Some d -> d !! session_key = None ->
  resolve_session_id E context None w =
  (Return (fresh_session_id E w),
   set_heap (<[context := <[session_key := fresh_session_id E w]> d]> (heap w))
            (set_uuids_drawn (S (uuids_drawn w)) w)).
Proof.
  intros Hd Hkey.
  unfold resolve_session_id, dict_get, dict_set, deref, uuid4.
  unfold mbind, M_bind, mret, M_ret, modify, read. cbn.
  rewrite Hd. cbn. fold session_key. rewrite Hkey. cbn. rewrite Hd. done.
Qed.

Lemma resolve_session_id_stored context w d s :
  heap w !! context = Some d -> d !! session_key = Some (PyStr s) ->
  resolve_session_id E context None w = (Return (PyStr s), w).
Proof.
  intros Hd Hkey.
  unfold resolve_session_id, dict_get, dict_set, deref, uuid4.
  unfold mbind, M_bind, mret, M_ret, modify, read. cbn.
  rewrite Hd. cbn. fold session_key. by rewrite Hkey.
Qed.

Lemma interpreter_heap code context sid image_name image_tag w :
  heap (snd (sandboxed_python_interpreter format_exc repr E code context sid
               image_name image_tag w))
  = heap (snd (resolve_session_id E context sid w)).
Proof.
  unfold sandboxed_python_interpreter.
  destruct (resolve_session_id_returns E context sid w) as (v & w1 & Hsid).
  rewrite (bind_Return _ _ _ _ _ Hsid), Hsid. apply keeps_heap_run.
Qed.

End SessionId.

(** C10: called without a session id on a context dict that lacks
    the key [__sandbox_session_id__], the wrapper stores a freshly
    drawn uuid under that key in the caller's own dict and changes no
    other dict and no other key; any later call on the same dict,
    again without a session id, resolves to that same id, draws no
    new uuid and leaves all dicts as they are.  Called with a session
    id, the resolution step returns it and changes nothing, and the
    whole call leaves all dicts as they are. *)
Theorem fresh_session_id_stored_in_context
  format_exc repr E code context image_name image_tag w d :
  heap w !! context = Some d -> d !! session_key = None ->
  let after :=
    snd (sandboxed_python_interpreter format_exc repr E code context None
           image_name image_tag w) in
  heap after = <[context := <[session_key := fresh_session_id E w]> d]> (heap w)
  ∧ (∀ w2, heap w2 = heap after ->
       resolve_session_id E context None w2 = (Return (fresh_session_id E w), w2))
  ∧ (∀ E' code' image_name' image_tag' w2, heap w2 = heap after ->
       heap (snd (sandboxed_python_interpreter format_exc repr E' code' context
                    None image_name' image_tag' w2)) = heap after)
  ∧ (∀ s w0, resolve_session_id E context (Some s) w0 = (Return (PyStr s), w0))
  ∧ (∀ s w0,
       heap (snd (sandboxed_python_interpreter format_exc repr E code context
                    (Some s) image_name image_tag w0)) = heap w0).
Proof.
  intros Hd Hkey after.
  assert (heap after
          = <[context := <[session_key := fresh_session_id E w]> d]> (heap w))
    as Hafter.
  { unfold after. rewrite interpreter_heap.
    by rewrite (resolve_session_id_fresh E context w d Hd Hkey). }
  assert (∀ E' w2, heap w2 = heap after ->
            resolve_session_id E' context None w2
            = (Return (fresh_session_id E w), w2)) as Hlater.
  { intros E' w2 Hw2.
    apply resolve_session_id_stored
      with (d := <[session_key := fresh_session_id E w]> d).
    - by rewrite Hw2, Hafter, lookup_insert_eq.
    - by rewrite lookup_insert_eq. }
  split_and!.
  - exact Hafter.
  - intros w2. apply Hlater.
  - intros E' code' image_name' image_tag' w2 Hw2.
    rewrite interpreter_heap, (Hlater E' w2 Hw2). exact Hw2.
  - done.
  - intros s w0. by rewrite interpreter_heap.
Qed.

(** C10, an instance: an empty context dict at reference 0 on a
    healthy engine. *)
Lemma fresh_session_id_stored_in_context_witness :
  heap (snd (sandboxed_python_interpreter sample_format_exc sample_repr
               (healthy (Exits 1 0) (Utf8 "done")) "print('done')" 0 None
               "dolphin-python-sandbox" "latest" (world_with ∅)))
  = {[ 0 := {[ session_key := PyStr "1b4e28ba-2fa1-11d2-883f-0016d3cca427" ]} ]}.
Proof.
  destruct (fresh_session_id_stored_in_context sample_format_exc sample_repr
              (healthy (Exits 1 0) (Utf8 "done")) "print('done')" 0
              "dolphin-python-sandbox" "latest" (world_with ∅) ∅)
    as (Hafter & _).
  - reflexivity.
  - reflexivity.
  - rewrite Hafter. vm_compute. reflexivity.
Defined.

(** ** More on the policy gate *)

Section Policy.

Lemma disallowed_imports_same_modules t1 t2 :
  (∀ m, m ∈ imported_modules t1 <-> m ∈ imported_modules t2) ->
  disallowed_imports t1 = disallowed_imports t2.
Proof.
  intros Hsame. apply set_eq. intros x.
  by rewrite !elem_of_disallowed_imports, Hsame.
Qed.

Lemma verdict_accepts_iff summary tree :
  (verdict summary tree).1 = true <->
  ∀ m, m ∈ imported_modules tree -> top_level m ∈ ALLOWED_LIBRARIES.
Proof.
  rewrite <- disallowed_imports_empty. unfold verdict.
  by destruct (decide (disallowed_imports tree = ∅)).
Qed.

End Policy.

(** X1. The verdict and the message depend only on which module paths the
    snippet imports: the order of the import statements, their
    repetition, their nesting in other statements, the names imported
    from a module, the [as] names and the level of a relative import
    play no part. *)
Theorem verdict_depends_on_modules_only summary t1 t2 :
  (∀ m, m ∈ imported_modules t1 <-> m ∈ imported_modules t2) ->
  verdict summary t1 = verdict summary t2.
Proof.
  intros Hsame. unfold verdict.
  by rewrite (disallowed_imports_same_modules t1 t2 Hsame).
Qed.

Lemma verdict_depends_on_modules_only_witness :
  verdict "" tree_torch_flask = verdict "" tree_flask_torch_nested.
Proof.
  apply (verdict_depends_on_modules_only "" tree_torch_flask
           tree_flask_torch_nested).
  intros m. vm_compute imported_modules.
  rewrite !elem_of_cons, !elem_of_nil. tauto.
Defined.

(** X2. A module is accepted exactly when each of its statements is
    accepted on its own: no statement can make up for another, and
    adding statements never turns a rejection into an acceptance. *)
Theorem module_accepted_iff_statements summary children :
  (verdict summary (Node children)).1 = true <->
  ∀ c, c ∈ children -> (verdict summary c).1 = true.
Proof.
  rewrite verdict_accepts_iff, imported_modules_Node. split.
  - intros Hall c Hc. apply verdict_accepts_iff. intros m Hm.
    apply Hall, list_elem_of_bind. eauto.
  - intros Hall m (c & Hm & Hc)%list_elem_of_bind.
    by apply (verdict_accepts_iff summary c); [apply Hall|].
Qed.

(** ** More on [read_session_file] *)

Section SessionStoreFacts.

Import Pathlib.

Lemma foldl_up_or_down_app acc xs :
  ".." ∉ xs -> foldl up_or_down acc xs = acc ++ xs.
Proof.
  revert acc. induction xs as [|x xs IH]; intros acc Hxs; cbn.
  - by rewrite app_nil_r.
  - apply not_elem_of_cons in Hxs as [Hx Hxs]. unfold up_or_down at 2.
    destruct (String.eqb_spec x ".."); [congruence|].
    by rewrite IH, <- app_assoc.
Qed.

Lemma components_joinpath_relative fs dir filename :
  root_of filename = Relative ->
  components fs (joinpath dir filename)
  = components fs dir ++ parts (of_string filename).
Proof.
  intros Hrel. unfold joinpath, components. cbn [of_string path_root].
  rewrite Hrel. cbn [path_root parts].
  destruct (path_root dir); by rewrite ?app_assoc.
Qed.

Lemma read_session_file_returned fs dir filename text :
  read_session_file fs dir filename = Return text ->
  is_relative_to (joinpath dir filename) dir = true
  ∧ ∃ raw, stat fs (joinpath dir filename) = Some (File (Utf8 raw))
           ∧ text = universal_newlines raw.
Proof.
  unfold read_session_file, read_text.
  destruct (path_exists fs (joinpath dir filename)); [|done].
  destruct (is_relative_to (joinpath dir filename) dir); [|done].
  cbn [negb].
  destruct (stat fs (joinpath dir filename)) as [[[raw|?]|?]|]; try done.
  cbn. intros [= <-]. split; [done|]. by exists raw.
Qed.

Lemma joinpath_empty dir filename :
  filename = "" ∨ filename = "." -> joinpath dir filename = dir.
Proof.
  intros [-> | ->]; destruct dir as [r ps]; unfold joinpath; cbn;
    by rewrite app_nil_r.
Qed.

End SessionStoreFacts.

(** X3. A relative name without a [..] component never leaves the session
    directory: whatever [read_session_file] returns for it is the text
    of a file, decoded and with its line breaks normalised, whose
    resolved path lies inside the resolved session directory. *)
Theorem read_session_file_without_dotdot_stays_inside fs dir filename text :
  Pathlib.root_of filename = Pathlib.Relative ->
  ".." ∉ Pathlib.parts (Pathlib.of_string filename) ->
  read_session_file fs dir filename = Return text ->
  Pathlib.contained_in fs (Pathlib.joinpath dir filename) dir
  ∧ ∃ raw,
      Pathlib.stat fs (Pathlib.joinpath dir filename)
      = Some (Pathlib.File (Utf8 raw))
      ∧ text = Pathlib.universal_newlines raw.
Proof.
  intros Hrel Hdots [_ Hstat]%read_session_file_returned. split; [|done].
  unfold Pathlib.contained_in, Pathlib.resolve.
  rewrite components_joinpath_relative, foldl_app by done.
  rewrite (foldl_up_or_down_app _ (Pathlib.parts (Pathlib.of_string filename)))
    by done.
  by eexists.
Qed.

Lemma read_session_file_without_dotdot_stays_inside_witness :
  Pathlib.contained_in sample_fs (Pathlib.joinpath alice_dir "r.txt") alice_dir
  ∧ ∃ raw,
      Pathlib.stat sample_fs (Pathlib.joinpath alice_dir "r.txt")
      = Some (Pathlib.File (Utf8 raw))
      ∧ "hi" = Pathlib.universal_newlines raw.
Proof.
  apply (read_session_file_without_dotdot_stays_inside sample_fs alice_dir
           "r.txt" "hi").
  - reflexivity.
  - apply (bool_decide_unpack _). vm_compute. exact I.
  - vm_compute. reflexivity.
Defined.

(** X4. An absolute name is read only when, as written, it starts with the
    components of the session directory; an absolute name is never
    read from a session directory given as a relative path. *)
Theorem read_session_file_absolute_name fs dir filename text :
  Pathlib.root_of filename ≠ Pathlib.Relative ->
  read_session_file fs dir filename = Return text ->
  Pathlib.path_root dir = Pathlib.root_of filename
  ∧ Pathlib.parts dir `prefix_of` Pathlib.parts (Pathlib.of_string filename).
Proof.
  intros Habs [Hunder _]%read_session_file_returned. revert Hunder.
  unfold Pathlib.is_relative_to, Pathlib.joinpath.
  cbn [Pathlib.of_string Pathlib.path_root].
  destruct (Pathlib.root_of filename) eqn:Hroot; [done|..];
    intros Hunder%bool_decide_eq_true; cbn in Hunder; by rewrite Hroot in Hunder.
Qed.

Lemma read_session_file_absolute_name_witness :
  Pathlib.path_root alice_dir = Pathlib.root_of "/tmp/sandboxes/alice/r.txt"
  ∧ Pathlib.parts alice_dir
    `prefix_of` Pathlib.parts (Pathlib.of_string "/tmp/sandboxes/alice/r.txt").
Proof.
  apply (read_session_file_absolute_name sample_fs alice_dir
           "/tmp/sandboxes/alice/r.txt" "hi").
  - vm_compute. discriminate.
  - vm_compute. reflexivity.
Defined.

(** X5. The empty name and the name [.] stand for the session directory
    itself: when it exists, the call passes both checks and fails in
    [read_text] with [IsADirectoryError]. *)
Theorem read_session_file_empty_name fs dir filename entries :
  filename = "" ∨ filename = "." ->
  Pathlib.stat fs dir = Some (Pathlib.Dir entries) ->
  read_session_file fs dir filename
  = Raise (error IsADirectoryError
             ("[Errno 21] Is a directory: '" +:+ Pathlib.to_string dir +:+ "'")).
Proof.
  intros Hname Hstat. unfold read_session_file, Pathlib.read_text.
  rewrite (joinpath_empty dir filename Hname).
  unfold Pathlib.path_exists. rewrite Hstat. cbn [negb].
  assert (Pathlib.is_relative_to dir dir = true) as ->; [|done].
  apply bool_decide_eq_true. done.
Qed.

Lemma read_session_file_empty_name_witness :
  read_session_file sample_fs alice_dir ""
  = Raise (error IsADirectoryError
             "[Errno 21] Is a directory: '/tmp/sandboxes/alice'").
Proof.
  apply (read_session_file_empty_name sample_fs alice_dir ""
           [("r.txt", Pathlib.File (Utf8 "hi"))]).
  - left. reflexivity.
  - vm_compute. reflexivity.
Defined.

(** ** [get_session_files] *)

Section Listing.

Import Pathlib.

Lemma fsnode_ind (P : fsnode -> Prop) :
  (∀ content, P (File content)) ->
  (∀ entries, Forall (fun e => P e.2) entries -> P (Dir entries)) ->
  ∀ n, P n.
Proof.
  intros HF HD. fix IH 1. intros [content|entries]; [apply HF|].
  apply HD. induction entries as [|[name child] entries IHe]; constructor.
  - apply IH.
  - apply IHe.
Qed.

Lemma well_formed_Dir entries :
  well_formed (Dir entries) = true <->
  NoDup entries.*1
  ∧ Forall (fun e => valid_name e.1 ∧ well_formed e.2 = true) entries.
Proof.
  cbn [well_formed]. rewrite andb_true_iff, bool_decide_eq_true.
  apply and_iff_compat_l.
  induction entries as [|[name child] entries IH].
  - split; [constructor|done].
  - rewrite Forall_cons, !andb_true_iff, bool_decide_eq_true, IH. cbn. tauto.
Qed.

Lemma entry_Some name entries child :
  entry name entries = Some child -> (name, child) ∈ entries.
Proof.
  induction entries as [|[n c] entries IH]; cbn; [done|].
  destruct (String.eqb_spec n name) as [->|].
  - intros [= ->]. apply list_elem_of_here.
  - intros H. apply list_elem_of_further. auto.
Qed.

Lemma entry_NoDup name entries child :
  NoDup entries.*1 -> (name, child) ∈ entries ->
  entry name entries = Some child.
Proof.
  induction entries as [|[n c] entries IH]; cbn; [by intros _ ?%elem_of_nil|].
  intros [Hn Hnd]%NoDup_cons [[= -> ->]|Hin]%elem_of_cons.
  - by rewrite String.eqb_refl.
  - destruct (String.eqb_spec n name) as [->|]; [|auto].
    exfalso. apply Hn. apply list_elem_of_fmap. by exists (name, child).
Qed.

Lemma elem_of_rglob_below prefix entries x :
  x ∈ (fix go (l : list (string * fsnode)) :=
         match l with
         | [] => []
         | (name, child) :: l' => rglob (prefix ++ [name]) child ++ go l'
         end) entries
  <-> ∃ name child, (name, child) ∈ entries ∧ x ∈ rglob (prefix ++ [name]) child.
Proof.
  induction entries as [|[n c] entries IH].
  - rewrite elem_of_nil. split; [done|]. by intros (? & ? & ?%elem_of_nil & _).
  - rewrite elem_of_app, IH. split.
    + intros [Hx|(name & child & Hin & Hx)].
      * exists n, c. split; [apply list_elem_of_here|done].
      * exists name, child. split; [by apply list_elem_of_further|done].
    + intros (name & child & [[= -> ->]|Hin]%elem_of_cons & Hx); [by left|].
      right. by exists name, child.
Qed.

(** The items of [rglob] are the nodes reached by following one name
    or more downwards. *)
Lemma elem_of_rglob n :
  ∀ prefix rel m, well_formed n = true ->
    (rel, m) ∈ rglob prefix n <->
    ∃ rel', rel = prefix ++ rel' ∧ rel' ≠ [] ∧ lookup_rel n rel' = Some m.
Proof.
  induction n as [text|entries IH] using fsnode_ind; intros prefix rel m Hwf.
  - cbn [rglob]. rewrite elem_of_nil. split; [done|].
    by intros ([|c rel'] & _ & ? & ?).
  - apply well_formed_Dir in Hwf as [Hnodup Hwf].
    cbn [rglob]. rewrite elem_of_app, list_elem_of_fmap, elem_of_rglob_below.
    split.
    + intros [([name child] & [= -> ->] & Hin)|(name & child & Hin & Hrel)].
      * exists [name]. split_and!; [done..|]. cbn.
        by rewrite (entry_NoDup name entries child).
      * rewrite Forall_forall in IH, Hwf.
        apply (IH (name, child)) in Hrel as (rel' & -> & Hne & Hrel);
          [|done|by apply (Hwf (name, child))].
        exists (name :: rel'). rewrite <- app_assoc. split_and!; [done..|].
        cbn. by rewrite (entry_NoDup name entries child).
    + intros ([|c [|c' rel']] & -> & Hne & Hrel); [done|..]; cbn in Hrel;
        destruct (entry c entries) as [child|] eqn:Hentry; try done;
        apply entry_Some in Hentry.
      * left. exists (c, child). by injection Hrel as ->.
      * right. exists c, child. split; [done|].
        rewrite Forall_forall in IH, Hwf.
        apply (IH (c, child));
          [done|by apply (Hwf (c, child))|].
        exists (c' :: rel'). by rewrite <- app_assoc.
Qed.

Lemma lookup_rel_valid rel :
  ∀ n m, well_formed n = true -> lookup_rel n rel = Some m ->
         Forall valid_name rel ∧ well_formed m = true.
Proof.
  induction rel as [|c rel IH]; intros n m Hwf; cbn.
  - intros [= <-]. by split.
  - destruct n as [|entries]; [done|].
    destruct (entry c entries) as [child|] eqn:Hentry; [|done].
    apply entry_Some in Hentry. apply well_formed_Dir in Hwf as [_ Hwf].
    rewrite Forall_forall in Hwf.
    destruct (Hwf (c, child)) as [Hc Hchild]; [done|].
    intros [Hrel Hm]%(IH child m Hchild). split; [by constructor|done].
Qed.

Lemma descend_all_lookup_rel rel :
  ∀ n up m, Forall valid_name rel -> lookup_rel n rel = Some m ->
            ∃ up', descend_all (n :: up) rel = Some (m :: up').
Proof.
  induction rel as [|c rel IH]; intros n up m Hvalid; cbn.
  - intros [= <-]. by exists up.
  - destruct n as [|entries]; [done|].
    apply Forall_cons in Hvalid as [(_ & _ & Hdots & _) Hvalid].
    destruct (String.eqb_spec c ".."); [done|].
    destruct (entry c entries) as [child|]; [|done].
    by apply IH.
Qed.

Lemma descend_all_app stack xs ys :
  descend_all stack (xs ++ ys) =
  match descend_all stack xs with
  | Some stack' => descend_all stack' ys
  | None => None
  end.
Proof.
  revert stack. induction xs as [|x xs IH]; intros stack; cbn; [done|].
  by destruct (descend stack x).
Qed.

Lemma descend_well_formed stack c stack' :
  Forall (fun n => well_formed n = true) stack ->
  descend stack c = Some stack' ->
  Forall (fun n => well_formed n = true) stack'.
Proof.
  destruct stack as [|[|entries] up]; try done. cbn. intros Hwf.
  destruct (String.eqb c "..").
  - intros [= <-]. destruct up; [done|]. by apply Forall_cons in Hwf as [_ ?].
  - destruct (entry c entries) as [child|] eqn:Hentry; [|done].
    intros [= <-]. constructor; [|done].
    apply Forall_cons in Hwf as [[_ Hwf]%well_formed_Dir _].
    rewrite Forall_forall in Hwf.
    by apply (Hwf (c, child)), entry_Some.
Qed.

Lemma descend_all_well_formed cs :
  ∀ stack stack',
    Forall (fun n => well_formed n = true) stack ->
    descend_all stack cs = Some stack' ->
    Forall (fun n => well_formed n = true) stack'.
Proof.
  induction cs as [|c cs IH]; intros stack stack' Hwf; cbn.
  - by intros [= <-].
  - destruct (descend stack c) as [stack1|] eqn:Hstep; [|done].
    apply IH. by apply (descend_well_formed stack c).
Qed.

Lemma stat_descend_all fs p n :
  stat fs p = Some n <->
  ∃ up, descend_all [fs_root fs] (components fs p) = Some (n :: up).
Proof.
  unfold stat.
  destruct (descend_all [fs_root fs] (components fs p)) as [[|m up]|].
  - split; [done|]. by intros [? ?].
  - split; [intros [= ->]; by exists up|]. by intros [? [= -> _]].
  - split; [done|]. by intros [? ?].
Qed.

(** *** Splitting what was joined *)

Lemma split_sep_app sep s t :
  PyStr.split sep s = [s] ->
  PyStr.split sep (s +:+ String sep t) = s :: PyStr.split sep t.
Proof.
  induction s as [|c s IH].
  - intros _. change ("" +:+ String sep t) with (String sep t).
    cbn [PyStr.split]. by rewrite Ascii.eqb_refl.
  - change (String c s +:+ String sep t) with (String c (s +:+ String sep t)).
    cbn [PyStr.split]. destruct (Ascii.eqb c sep); [done|].
    destruct (PyStr.split sep s) as [|w ws] eqn:Hs.
    + by apply split_nonempty in Hs.
    + intros [= -> ->]. by rewrite IH.
Qed.

Lemma split_join sep l :
  l ≠ [] -> Forall (fun s => PyStr.split sep s = [s]) l ->
  PyStr.split sep (PyStr.join (String sep "") l) = l.
Proof.
  induction l as [|x [|y l] IH]; [done|..]; intros _ Hl.
  - by apply Forall_cons in Hl as [? _].
  - apply Forall_cons in Hl as [Hx Hl].
    change (PyStr.join (String sep "") (x :: y :: l))
      with (x +:+ String sep (PyStr.join (String sep "") (y :: l))).
    by rewrite split_sep_app, IH.
Qed.

Lemma root_of_String c s : c ≠ "/"%char -> root_of (String c s) = Relative.
Proof. destruct c as [[] [] [] [] [] [] [] []]; done. Qed.

Lemma filter_Forall_id {A} (P : A -> Prop) `{∀ x, Decision (P x)} (l : list A) :
  Forall P l -> filter P l = l.
Proof.
  induction 1 as [|x l Hx Hl IH]; [done|].
  by rewrite filter_cons_True, IH.
Qed.

(** A relative path of valid names is what [Path] reads back from its
    own text. *)
Lemma of_string_join rel :
  rel ≠ [] -> Forall valid_name rel ->
  of_string (PyStr.join "/" rel) = mk_path Relative rel.
Proof.
  intros Hne Hvalid. unfold of_string.
  rewrite split_join;
    [|done|by eapply Forall_impl; [exact Hvalid|intros ? (_ & _ & _ & ?)]].
  rewrite filter_Forall_id
    by (eapply Forall_impl; [exact Hvalid|by intros ? (? & ? & _ & _)]).
  f_equal. destruct rel as [|x rel]; [done|].
  apply Forall_cons in Hvalid as [(Hx & _ & _ & Hsplit) _].
  destruct x as [|c x]; [done|].
  assert (c ≠ "/"%char) as Hc.
  { intros ->. cbn in Hsplit. done. }
  destruct rel as [|y rel]; [by apply root_of_String|].
  change (PyStr.join "/" (String c x :: y :: rel))
    with (String c (x +:+ "/" +:+ PyStr.join "/" (y :: rel))).
  by apply root_of_String.
Qed.

Lemma last_app_nonempty {A} (l rel : list A) d :
  rel ≠ [] -> List.last (l ++ rel) d = List.last rel d.
Proof.
  intros Hne. induction l as [|x l IH]; [done|].
  cbn [app List.last]. rewrite IH.
  destruct (l ++ rel) eqn:Happ; [|done].
  by apply app_eq_nil in Happ as [_ ?].
Qed.

(** What a listed name stands for. *)
Lemma get_session_files_item fs dir f :
  well_formed (fs_root fs) = true ->
  f ∈ get_session_files fs dir ->
  ∃ rel content,
    rel ≠ [] ∧ Forall valid_name rel ∧ f = PyStr.join "/" rel
    ∧ PyStr.startswith (List.last rel "") "script_" = false
    ∧ of_string f = mk_path Relative rel
    ∧ stat fs (joinpath dir f) = Some (File content).
Proof.
  intros Hwf. unfold get_session_files.
  destruct (path_exists fs dir); [|by intros ?%elem_of_nil]. cbn [negb].
  destruct (stat fs dir) as [top|] eqn:Hstat; [|by intros ?%elem_of_nil].
  intros ([rel m] & Hin & Hitem)%list_elem_of_omap.
  cbn [fst snd] in Hitem. destruct m as [content|]; [|done].
  cbn [is_file andb] in Hitem.
  destruct (PyStr.startswith (List.last rel "") "script_") eqn:Hscript; [done|].
  cbn [negb] in Hitem.
  injection Hitem as <-.
  apply stat_descend_all in Hstat as [up Hstat].
  assert (well_formed top = true) as Htop.
  { apply descend_all_well_formed in Hstat; [|by constructor].
    by apply Forall_cons in Hstat as [? _]. }
  apply elem_of_rglob in Hin as (rel' & -> & Hne & Hrel); [|done].
  cbn [app] in *.
  destruct (lookup_rel_valid rel' top (File content) Htop Hrel) as [Hvalid _].
  pose proof (of_string_join rel' Hne Hvalid) as Hpath.
  exists rel', content. split_and!; try done.
  apply stat_descend_all.
  assert (root_of (PyStr.join "/" rel') = Relative) as Hroot
    by (unfold of_string in Hpath; by injection Hpath).
  rewrite components_joinpath_relative by done.
  rewrite Hpath. cbn [parts]. rewrite descend_all_app, Hstat.
  by apply descend_all_lookup_rel.
Qed.

End Listing.



(** X7. No listed name ends in a component that starts with [script_]:
    the scripts that [execute_code] stages are never listed, wherever
    below the session directory they lie. *)
Theorem listed_files_are_not_scripts fs dir f :
  well_formed (Pathlib.fs_root fs) = true ->
  f ∈ get_session_files fs dir ->
  PyStr.startswith (Pathlib.name (Pathlib.joinpath dir f)) "script_" = false.
Proof.
  intros Hwf (rel & text & Hne & _ & _ & Hscript & Hpath & _)%get_session_files_item;
    [|done].
  unfold Pathlib.name, Pathlib.joinpath. rewrite Hpath. cbn.
  by rewrite last_app_nonempty.
Qed.

Lemma listed_files_are_not_scripts_witness :
  PyStr.startswith (Pathlib.name (Pathlib.joinpath alice_dir "r.txt")) "script_"
  = false.
Proof.
  apply (listed_files_are_not_scripts session_fs alice_dir "r.txt").
  - vm_compute. reflexivity.
  - apply (bool_decide_unpack _). vm_compute. exact I.
Defined.

(** ** [__init__] *)

Section Init.

Variable E : engine.

Lemma try_sockets_is_Some client locations :
  is_Some (try_sockets E client locations) <->
  is_Some client
  ∨ ∃ p, p ∈ locations ∧ socket_present E p = true ∧ socket_fault E p = None.
Proof.
  revert client. induction locations as [|p locations IH]; intros client.
  - cbn. split; [by left|]. intros [?|(? & ?%elem_of_nil & _)]; done.
  - cbn [try_sockets].
    destruct (socket_present E p) eqn:Hpresent;
      [destruct (socket_fault E p) eqn:Hfault;
       [|destruct (socket_ping_fault E p)]|];
      rewrite ?IH; split.
    + intros [?|(q & Hq & ?)]; [by left|right].
      exists q. split; [by apply list_elem_of_further|done].
    + intros [?|(q & [->|Hq]%elem_of_cons & Hq1 & Hq2)];
        [by left|congruence|right; by exists q].
    + intros _. right. exists p. split; [apply list_elem_of_here|done].
    + intros _. left. done.
    + intros _. right. exists p. split; [apply list_elem_of_here|done].
    + done.
    + intros [?|(q & Hq & ?)]; [by left|right].
      exists q. split; [by apply list_elem_of_further|done].
    + intros [?|(q & [->|Hq]%elem_of_cons & Hq1 & Hq2)];
        [by left|congruence|right; by exists q].
Qed.

Lemma connect_is_Some :
  is_Some (connect E) <->
  from_env_fault E = None
  ∨ ∃ p, p ∈ socket_locations ∧ socket_present E p = true ∧ socket_fault E p = None.
Proof.
  unfold connect. destruct (from_env_fault E) as [e|].
  - rewrite try_sockets_is_Some. split.
    + intros [[? [=]]|?]. by right.
    + intros [[=]|?]. by right.
  - destruct (from_env_ping_fault E).
    + rewrite try_sockets_is_Some. split; [by left|]. intros _. left. done.
    + split; [by left|done].
Qed.

Lemma init_client_connect w :
  init_client E w =
  match connect E with
  | Some client => (Return client, w)
  | None => (Raise docker_not_available, w)
  end.
Proof. unfold init_client, try_except. by destruct (connect E). Qed.

End Init.

(** X9. The connection step of [__init__] succeeds exactly when a client
    object could be built, from the environment or for a socket file
    that is present; whether any [ping] was answered plays no part in
    it, and the state is left as it was. *)
Theorem init_client_succeeds_iff_client_built E w :
  (∃ client, init_client E w = (Return client, w)) <->
  from_env_fault E = None
  ∨ ∃ p, p ∈ socket_locations ∧ socket_present E p = true ∧ socket_fault E p = None.
Proof.
  rewrite <- connect_is_Some, init_client_connect.
  destruct (connect E) as [client|]; split.
  - done.
  - intros _. by exists client.
  - by intros [? [=]].
  - by intros [? [=]].
Qed.

(** X10. Whatever the connection step raises is the [RuntimeError] of the
    catch-all clause around [Could not connect to Docker daemon]: the
    clause for [DockerException], with its hint on Docker Desktop, is
    never taken. *)
Theorem init_client_raises_only_not_available E w e w' :
  init_client E w = (Raise e, w') ->
  e = docker_not_available ∧ w' = w ∧ connect E = None.
Proof.
  rewrite init_client_connect. destruct (connect E); [done|].
  by intros [= <- <-].
Qed.

Lemma init_client_raises_only_not_available_witness :
  docker_not_available = docker_not_available ∧ empty_world = empty_world
  ∧ connect unreachable = None.
Proof.
  apply (init_client_raises_only_not_available unreachable empty_world
           docker_not_available empty_world).
  vm_compute. reflexivity.
Defined.

(** X11. A client built from the environment is used although its ping
    failed, when no socket file is present. *)
Theorem unanswered_client_is_used E w :
  from_env_fault E = None -> is_Some (from_env_ping_fault E) ->
  (∀ p, p ∈ socket_locations -> socket_present E p = false) ->
  init_client E w = (Return "env", w).
Proof.
  intros Henv [e Hping] Habsent. rewrite init_client_connect.
  unfold connect, socket_locations in *. rewrite Henv, Hping. cbn.
  rewrite !Habsent; [done|set_solver..].
Qed.

Lemma unanswered_client_is_used_witness :
  init_client deaf_engine empty_world = (Return "env", empty_world).
Proof.
  apply (unanswered_client_is_used deaf_engine empty_world).
  - reflexivity.
  - vm_compute. eexists. reflexivity.
  - intros p _. reflexivity.
Defined.

Lemma uuid_str_nonempty u : uuid_str u ≠ "".
Proof. unfold uuid_str. destruct (String.substring 0 8 u); discriminate. Qed.

(** The executor and the state that [__init__] leaves when it returns. *)
Lemma init_Return E sid o w self w' :
  init E sid o w = (Return self, w') ->
  ∃ s client,
    self = mk_executor (PyStr s) (Pathlib.of_string (opt_sandbox_base_dir o))
             (opt_container_mount_path o) (image_of o) (opt_memory_limit o)
             (opt_cpu_quota o) (opt_enable_network o) (opt_timeout o)
             (Pathlib.joinpath (Pathlib.of_string (opt_sandbox_base_dir o)) s)
             client
    ∧ s ≠ "" ∧ connect E = Some client ∧ images_get_fault E = None
    ∧ (py_truthy sid = true ->
         sid = PyStr s
         ∧ w' = log_event
                  (EvMkdir (Pathlib.joinpath
                              (Pathlib.of_string (opt_sandbox_base_dir o)) s)) w)
    ∧ (py_truthy sid = false ->
         PyStr s = fresh_session_id E w
         ∧ w' = log_event
                  (EvMkdir (Pathlib.joinpath
                              (Pathlib.of_string (opt_sandbox_base_dir o)) s))
                  (set_uuids_drawn (S (uuids_drawn w)) w)).
Proof.
  unfold init, _ensure_image_exists, attempt, uuid4.
  unfold mbind, M_bind, mret, M_ret, modify, read, raise.
  destruct (py_truthy sid) eqn:Htruthy.
  - destruct sid as [|s|z]; [done| |done].
    destruct (mkdir_fault E); [done|]. rewrite init_client_connect.
    destruct (connect E) as [client|]; [|done].
    destruct (images_get_fault E) as [e|]; [by destruct (exn_class e)|].
    intros [= <- <-]. exists s, client. split_and!; try done.
    by destruct s.
  - destruct (mkdir_fault E); [done|]. rewrite init_client_connect.
    destruct (connect E) as [client|]; [|done].
    destruct (images_get_fault E) as [e|]; [by destruct (exn_class e)|].
    intros [= <- <-]. eexists _, client. split_and!; try done.
    apply uuid_str_nonempty.
Qed.

(** X12. When [__init__] returns, the executor holds a non-empty string as
    its session id: the one given when that is truthy, drawing no
    uuid, and otherwise the next uuid; its session directory is the
    base directory joined with that id and was made, as the only call
    recorded; its client is the one the connection step settled on;
    dicts, scripts and containers are untouched. *)
Theorem init_returned E sid o w self w' :
  init E sid o w = (Return self, w') ->
  ∃ s,
    session_id self = PyStr s ∧ s ≠ ""
    ∧ (py_truthy sid = true -> sid = PyStr s ∧ uuids_drawn w' = uuids_drawn w)
    ∧ (py_truthy sid = false ->
         PyStr s = fresh_session_id E w ∧ uuids_drawn w' = S (uuids_drawn w))
    ∧ session_dir self
      = Pathlib.joinpath (Pathlib.of_string (opt_sandbox_base_dir o)) s
    ∧ full_image_name self = image_of o
    ∧ connect E = Some (docker_client self)
    ∧ images_get_fault E = None
    ∧ trace w' = trace w ++ [EvMkdir (session_dir self)]
    ∧ heap w' = heap w ∧ scripts w' = scripts w ∧ containers w' = containers w.
Proof.
  intros (s & client & -> & Hs & Hconnect & Himage & Hgiven & Hdrawn)%init_Return.
  exists s. cbn.
  destruct (py_truthy sid);
    [destruct (Hgiven eq_refl) as [-> ->]|destruct (Hdrawn eq_refl) as [Hid ->]];
    split_and!; try done; by intros _.
Qed.

Lemma init_returned_witness :
  ∃ s,
    PyStr s = fresh_session_id (healthy (Exits 1 0) (Utf8 "")) empty_world
    ∧ Pathlib.joinpath (Pathlib.of_string "/tmp/sandboxes") s
      = Pathlib.of_string "/tmp/sandboxes/1b4e28ba-2fa1-11d2-883f-0016d3cca427".
Proof.
  destruct (init (healthy (Exits 1 0) (Utf8 "")) (PyStr "") default_options
              empty_world) as [[self|e] w'] eqn:Hinit;
    [|by vm_compute in Hinit].
  destruct (init_returned (healthy (Exits 1 0) (Utf8 "")) (PyStr "")
              default_options empty_world self w' Hinit)
    as (s & _ & _ & _ & Hfresh & _).
  exists s. split; [by apply Hfresh|].
  destruct (Hfresh eq_refl) as [Hs _]. vm_compute in Hs. injection Hs as ->.
  vm_compute. reflexivity.
Defined.

(** X13. A session id that is an absolute path takes the place of the base
    directory: the session directory is that path, outside
    [sandbox_base_dir]. *)
Theorem init_absolute_session_id E s o w self w' :
  Pathlib.root_of s ≠ Pathlib.Relative ->
  init E (PyStr s) o w = (Return self, w') ->
  session_dir self = Pathlib.of_string s
  ∧ trace w' = trace w ++ [EvMkdir (Pathlib.of_string s)].
Proof.
  intros Habs Hinit.
  assert (py_truthy (PyStr s) = true) as Htruthy by by destruct s.
  apply init_Return in Hinit as (s' & client & -> & _ & _ & _ & Hgiven & _).
  destruct (Hgiven Htruthy) as [[= <-] ->]. cbn.
  unfold Pathlib.joinpath. cbn [Pathlib.of_string Pathlib.path_root].
  by destruct (Pathlib.root_of s).
Qed.

Lemma init_absolute_session_id_witness :
  ∃ self w',
    init (healthy (Exits 1 0) (Utf8 "")) (PyStr "/etc") default_options
         empty_world = (Return self, w')
    ∧ session_dir self = Pathlib.of_string "/etc".
Proof.
  destruct (init (healthy (Exits 1 0) (Utf8 "")) (PyStr "/etc") default_options
              empty_world) as [[self|e] w'] eqn:Hinit;
    [|by vm_compute in Hinit].
  exists self, w'. split; [done|].
  apply (init_absolute_session_id (healthy (Exits 1 0) (Utf8 "")) "/etc"
           default_options empty_world self w').
  - vm_compute. discriminate.
  - exact Hinit.
Defined.

(** X14. Every way [__init__] can fail: a session id that is neither a
    string nor falsy, a failure to make the session directory, no
    client, a missing image, reported as a [RuntimeError] that names
    the build command, or any other failure of the image lookup,
    passed on as it is. *)
Theorem init_raised E sid o w e w' :
  init E sid o w = (Raise e, w') ->
  (exn_class e = TypeError ∧ ∃ z, sid = PyInt z ∧ z ≠ 0%Z)
  ∨ mkdir_fault E = Some e
  ∨ (connect E = None ∧ e = docker_not_available)
  ∨ (∃ e0, images_get_fault E = Some e0 ∧ exn_class e0 = ImageNotFound
           ∧ e = image_not_found (image_of o))
  ∨ (images_get_fault E = Some e ∧ exn_class e ≠ ImageNotFound).
Proof.
  unfold init, _ensure_image_exists, attempt, uuid4.
  unfold mbind, M_bind, mret, M_ret, modify, read, raise.
  destruct (py_truthy sid) eqn:Htruthy;
    [destruct sid as [|s|z]; [done| |]|].
  2: { intros [= <- _]. left. split; [done|]. exists z. split; [done|].
       by intros ->. }
  all: destruct (mkdir_fault E) as [e1|]; [intros [= <- _]; by right; left|].
  all: rewrite init_client_connect.
  all: destruct (connect E) as [client|];
         [|intros [= <- _]; right; right; by left].
  all: destruct (images_get_fault E) as [e1|] eqn:Himage; [|done].
  all: destruct (exn_class e1) eqn:Hclass; intros [= <- _]; right; right; right;
         first [ left; by exists e1 | right; split; [done|by rewrite Hclass] ].
Qed.

Lemma init_raised_witness :
  (exn_class (image_not_found "dolphin-python-sandbox:latest") = TypeError
   ∧ ∃ z, PyStr "alice" = PyInt z ∧ z ≠ 0%Z)
  ∨ mkdir_fault imageless = Some (image_not_found "dolphin-python-sandbox:latest")
  ∨ (connect imageless = None
     ∧ image_not_found "dolphin-python-sandbox:latest" = docker_not_available)
  ∨ (∃ e0, images_get_fault imageless = Some e0 ∧ exn_class e0 = ImageNotFound
           ∧ image_not_found "dolphin-python-sandbox:latest"
             = image_not_found (image_of default_options))
  ∨ (images_get_fault imageless
     = Some (image_not_found "dolphin-python-sandbox:latest")
     ∧ exn_class (image_not_found "dolphin-python-sandbox:latest") ≠ ImageNotFound).
Proof.
  apply (init_raised imageless (PyStr "alice") default_options empty_world
           (image_not_found "dolphin-python-sandbox:latest")
           (log_event (EvMkdir alice_dir) empty_world)).
  vm_compute. reflexivity.
Defined.

(** ** More on [execute_code] *)

Section ExecuteCode.

Variable format_exc : exn -> string.
Variable repr : gmap string pyvalue -> string.

Ltac run_all :=
  unfold execute_code, execute_code_handler, container_wait, container_logs,
    remove_quietly, cleanup_script, uuid4, attempt, decode_utf8;
  unfold try_finally, try_except, mbind, M_bind, mret, M_ret, modify, read, raise.

(** One case distinction of the code, outermost first. *)
Ltac branch :=
  match goal with
  | |- context [match ?x with _ => _ end] =>
      lazymatch x with
      | context [match _ with _ => _ end] => fail
      | _ => destruct x eqn:?
      end
  end.

Ltac branches := repeat (branch; cbn).

(** X15. No container is left behind: whatever faults while the script is
    staged and the container created, started, waited for and read,
    the number of containers after [execute_code] is the number
    before, as long as the removal itself does not fault. *)
Theorem execute_code_leaves_no_container E self code context w :
  remove_fault E = None ->
  containers (execute_code format_exc repr E self code context w).2
  = containers w.
Proof. intros Hremove. run_all. rewrite Hremove. cbn. branches; done. Qed.

(** X16. No script is left behind: whatever else faults, the staged script
    is gone after [execute_code], and no other script is touched, as
    long as looking it up and unlinking it do not fault. *)
Theorem execute_code_leaves_no_script E self code context w :
  exists_fault E = None -> unlink_fault E = None ->
  scripts (execute_code format_exc repr E self code context w).2
  = scripts w ∖ {[ Pathlib.to_string
                     (staged_script self (uuid_stream E (uuids_drawn w))) ]}.
Proof.
  intros Hexists Hunlink. run_all. rewrite Hexists, Hunlink. cbn.
  unfold staged_script. branches;
    repeat match goal with
           | H : bool_decide _ = true |- _ => apply bool_decide_eq_true in H
           | H : bool_decide _ = false |- _ => apply bool_decide_eq_false in H
           end;
    set_solver.
Qed.

(** X17. [execute_code] turns every fault into a returned report, with two
    exceptions: what [script_path.exists()] raises in the [finally]
    clause, and what the [ContainerError] clause raises itself when
    the [stderr] of the exception is missing or is not valid UTF-8. *)
Theorem execute_code_raises_only_from_cleanup E self code context w e w' :
  execute_code format_exc repr E self code context w = (Raise e, w') ->
  exists_fault E = Some e
  ∨ exn_class e = AttributeError ∨ exn_class e = UnicodeDecodeError.
Proof.
  run_all. cbn. branches; intros [= <- <-]; cbn; auto.
Qed.

(** X18. An exception of [script_path.exists()] in the [finally] clause
    replaces whatever the call was about to return or raise. *)
Theorem execute_code_passes_on_exists_fault E self code context w e :
  exists_fault E = Some e ->
  ∃ w', execute_code format_exc repr E self code context w = (Raise e, w').
Proof.
  intros Hexists. run_all. rewrite Hexists. cbn. branches; eauto.
Qed.

Lemma execute_code_events E self code context w :
  ∃ evs,
    trace (execute_code format_exc repr E self code context w).2
    = trace w ++ evs
    ∧ Forall (creates_only
                (create_args self
                   (Pathlib.name
                      (staged_script self (uuid_stream E (uuids_drawn w))))))
             evs.
Proof.
  run_all. cbn. unfold staged_script.
  branches;
    first [ exists []; split; [by rewrite app_nil_r|constructor]
          | rewrite <- ?app_assoc; eexists; split;
            [reflexivity|by repeat constructor] ].
Qed.

(** X19. When the log of a completed run is not valid UTF-8, none of it is
    returned: the result is the report of the catch-all clause for
    the [UnicodeDecodeError]. *)
Theorem undecodable_log_is_lost E self code context w status complaint :
  undisturbed E ->
  (∃ seconds, run E = Exits seconds status ∧ (seconds <= timeout self)%Z) ->
  logs_reply E = Return (NotUtf8 complaint) ->
  ∃ w',
    execute_code format_exc repr E self code context w
    = (Return (unexpected_error format_exc (error UnicodeDecodeError complaint)),
       w').
Proof.
  intros (Hwrite & Hcreate & Hstart & Hwait & Hexists)
         (seconds & Hrun & Hle%Z.leb_le) Hlogs.
  run_all. rewrite Hwrite, Hcreate, Hstart, Hwait, Hexists, Hrun, Hlogs.
  cbn. rewrite Hle. cbn. branches; eauto.
Qed.

(** X20. When the script cannot be written, no call reaches the Docker
    daemon: [execute_code] returns the report of the catch-all clause,
    creates no container, and at most unlinks a script. *)
Theorem staging_failure_creates_nothing E self code context w e :
  write_text_fault E = Some e -> exn_class e ≠ ContainerError ->
  exists_fault E = None ->
  ∃ w',
    execute_code format_exc repr E self code context w
    = (Return (unexpected_error format_exc e), w')
    ∧ containers w' = containers w
    ∧ (trace w' = trace w ∨ ∃ p, trace w' = trace w ++ [EvUnlink p]).
Proof.
  intros Hwrite Hclass Hexists.
  run_all. rewrite Hwrite, Hexists. cbn.
  branches; try done; eexists; (split_and!; [reflexivity|done|]); cbn;
    first [by left | right; by eexists].
Qed.

End ExecuteCode.

Lemma execute_code_leaves_no_container_witness :
  containers (execute_code sample_format_exc sample_repr full_disk alice
                "print('done')" None empty_world).2 = 0.
Proof.
  apply (execute_code_leaves_no_container sample_format_exc sample_repr
           full_disk alice "print('done')" None empty_world).
  reflexivity.
Defined.

Lemma execute_code_leaves_no_script_witness :
  scripts (execute_code sample_format_exc sample_repr slow_engine alice
             "import time; time.sleep(31)" None empty_world).2
  = scripts empty_world
    ∖ {[ Pathlib.to_string
           (staged_script alice (uuid_stream slow_engine (uuids_drawn empty_world))) ]}.
Proof.
  apply (execute_code_leaves_no_script sample_format_exc sample_repr
           slow_engine alice "import time; time.sleep(31)" None empty_world);
    reflexivity.
Defined.

Lemma execute_code_raises_only_from_cleanup_witness :
  exists_fault locked_out = Some (error OSError "[Errno 13] Permission denied")
  ∨ exn_class (error OSError "[Errno 13] Permission denied") = AttributeError
  ∨ exn_class (error OSError "[Errno 13] Permission denied") = UnicodeDecodeError.
Proof.
  destruct (execute_code sample_format_exc sample_repr locked_out alice
              "print('done')" None empty_world) as [r w'] eqn:Hrun.
  apply (execute_code_raises_only_from_cleanup sample_format_exc sample_repr
           locked_out alice "print('done')" None empty_world
           (error OSError "[Errno 13] Permission denied") w').
  rewrite Hrun. vm_compute in Hrun. by injection Hrun as <- <-.
Defined.

Lemma execute_code_passes_on_exists_fault_witness :
  ∃ w',
    execute_code sample_format_exc sample_repr locked_out alice
                 "print('done')" None empty_world
    = (Raise (error OSError "[Errno 13] Permission denied"), w').
Proof.
  apply (execute_code_passes_on_exists_fault sample_format_exc sample_repr
           locked_out alice "print('done')" None empty_world).
  reflexivity.
Defined.

Lemma undecodable_log_is_lost_witness :
  ∃ w',
    execute_code sample_format_exc sample_repr garbled alice
                 "import sys; sys.stdout.buffer.write(bytes([255]))" None
                 empty_world
    = (Return (unexpected_error sample_format_exc
                 (error UnicodeDecodeError
                    "'utf-8' codec can't decode byte 0xff in position 0: invalid start byte")),
       w').
Proof.
  apply (undecodable_log_is_lost sample_format_exc sample_repr garbled alice
           "import sys; sys.stdout.buffer.write(bytes([255]))" None
           empty_world 0).
  - vm_compute. split_and!; reflexivity.
  - exists 1%Z. split; [reflexivity|vm_compute; discriminate].
  - reflexivity.
Defined.

Lemma staging_failure_creates_nothing_witness :
  ∃ w',
    execute_code sample_format_exc sample_repr full_disk alice "print('done')"
                 None empty_world
    = (Return (unexpected_error sample_format_exc
                 (error OSError "[Errno 28] No space left on device")), w')
    ∧ containers w' = 0.
Proof.
  destruct (staging_failure_creates_nothing sample_format_exc sample_repr
              full_disk alice "print('done')" None empty_world
              (error OSError "[Errno 28] No space left on device"))
    as (w' & Hrun & Hnone & _).
  - reflexivity.
  - vm_compute. discriminate.
  - reflexivity.
  - exists w'. split; [exact Hrun|exact Hnone].
Defined.

(** X21. Every container a call of [execute_code] creates, and it creates
    one at most, is given the arguments of [create_args]: no network
    unless the executor enables it, the user [sandbox], every
    capability dropped, no new privileges, the memory and CPU limits
    of the executor, and the session directory as its only volume. *)
Theorem created_containers_are_confined
  format_exc repr E self code context w cfg :
  EvCreate cfg ∈ trace (execute_code format_exc repr E self code context w).2 ->
  EvCreate cfg ∈ trace w
  ∨ (cfg_network_mode cfg = (if enable_network self then "bridge" else "none")
     ∧ cfg_user cfg = "sandbox"
     ∧ cfg_cap_drop cfg = ["ALL"]
     ∧ cfg_security_opt cfg = ["no-new-privileges"]
     ∧ cfg_mem_limit cfg = memory_limit self
     ∧ cfg_cpu_quota cfg = cpu_quota self
     ∧ cfg_image cfg = full_image_name self
     ∧ cfg_volumes cfg
       = [(Pathlib.to_string (session_dir self), (container_mount_path self, "rw"))]
     ∧ cfg_command cfg
       = ["python3";
          container_mount_path self +:+ "/" +:+
          Pathlib.name (staged_script self (uuid_stream E (uuids_drawn w)))]).
Proof.
  destruct (execute_code_events format_exc repr E self code context w)
    as (evs & -> & Hevs).
  intros [Hold|Hnew]%elem_of_app; [by left|right].
  rewrite Forall_forall in Hevs. specialize (Hevs _ Hnew). cbn in Hevs.
  subst cfg. cbn. by destruct (enable_network self).
Qed.

Lemma created_containers_are_confined_witness :
  cfg_network_mode (create_args alice "script_1b4e28ba.py") = "none"
  ∧ cfg_user (create_args alice "script_1b4e28ba.py") = "sandbox".
Proof.
  destruct (created_containers_are_confined sample_format_exc sample_repr
              exit_zero alice "print('done')" None empty_world
              (create_args alice "script_1b4e28ba.py"))
    as [Hold|(Hnetwork & Huser & _)].
  - vm_compute. apply list_elem_of_further, list_elem_of_here.
  - by apply elem_of_nil in Hold.
  - split; [exact Hnetwork|exact Huser].
Defined.

(** ** The files below the session directory are the files listed *)

Section ListingComplete.

Import Pathlib.

Lemma lookup_rel_descend_all rel :
  ∀ n up m up', Forall valid_name rel ->
    descend_all (n :: up) rel = Some (m :: up') -> lookup_rel n rel = Some m.
Proof.
  induction rel as [|c rel IH]; intros n up m up' Hvalid; cbn.
  - by intros [= -> _].
  - destruct n as [|entries]; [done|].
    apply Forall_cons in Hvalid as [(_ & _ & Hdots & _) Hvalid].
    destruct (String.eqb_spec c ".."); [done|].
    destruct (entry c entries) as [child|]; [|done].
    by apply IH.
Qed.

End ListingComplete.

(** X8. Every file that a path of valid names leads to from the session
    directory is listed under that path, unless its own name starts
    with [script_]. *)
Theorem plain_files_are_listed fs dir rel content :
  well_formed (Pathlib.fs_root fs) = true ->
  rel ≠ [] -> Forall valid_name rel ->
  Pathlib.stat fs (Pathlib.joinpath dir (PyStr.join "/" rel))
  = Some (Pathlib.File content) ->
  PyStr.startswith (List.last rel "") "script_" = false ->
  PyStr.join "/" rel ∈ get_session_files fs dir.
Proof.
  intros Hwf Hne Hvalid Hstat Hscript.
  pose proof (of_string_join rel Hne Hvalid) as Hpath.
  assert (Pathlib.root_of (PyStr.join "/" rel) = Pathlib.Relative) as Hroot
    by (unfold Pathlib.of_string in Hpath; by injection Hpath).
  apply stat_descend_all in Hstat as [up Hstat].
  rewrite components_joinpath_relative, Hpath in Hstat by done.
  cbn [Pathlib.parts] in Hstat. rewrite descend_all_app in Hstat.
  destruct (Pathlib.descend_all [Pathlib.fs_root fs] (Pathlib.components fs dir))
    as [[|top up0]|] eqn:Hdir; [by destruct rel|..|done].
  assert (Pathlib.stat fs dir = Some top) as Htop
    by (apply stat_descend_all; by exists up0).
  assert (well_formed top = true) as Hwftop.
  { apply descend_all_well_formed in Hdir; [|by constructor].
    by apply Forall_cons in Hdir as [? _]. }
  apply lookup_rel_descend_all in Hstat; [|done].
  unfold get_session_files, Pathlib.path_exists. rewrite Htop. cbn [negb].
  apply list_elem_of_omap. exists (rel, Pathlib.File content). split.
  - apply elem_of_rglob; [done|]. by exists rel.
  - cbn [fst snd is_file andb]. by rewrite Hscript.
Qed.

Lemma plain_files_are_listed_witness :
  PyStr.join "/" ["out"; "plot.png"] ∈ get_session_files session_fs alice_dir.
Proof.
  apply (plain_files_are_listed session_fs alice_dir ["out"; "plot.png"]
           (NotUtf8 "'utf-8' codec can't decode byte 0x89 in position 0: invalid start byte")).
  - vm_compute. reflexivity.
  - discriminate.
  - repeat constructor; discriminate.
  - vm_compute. reflexivity.
  - vm_compute. reflexivity.
Defined.

(** ** [_prepare_script] *)

Section PrepareScript.

Lemma split_pieces sep s :
  Forall (fun piece => PyStr.split sep piece = [piece]) (PyStr.split sep s).
Proof.
  induction s as [|c s IH]; cbn [PyStr.split]; [by repeat constructor|].
  destruct (Ascii.eqb c sep) eqn:Hc; [by constructor|].
  destruct (PyStr.split sep s) as [|w ws].
  { constructor; [|constructor]. cbn [PyStr.split]. by rewrite Hc. }
  apply Forall_cons in IH as [Hw Hws]. constructor; [|done].
  cbn [PyStr.split]. by rewrite Hc, Hw.
Qed.

Lemma split_indented line :
  PyStr.split (ascii_of_nat 10) line = [line] ->
  PyStr.split (ascii_of_nat 10) ("    " +:+ line) = ["    " +:+ line].
Proof.
  intros Hline.
  change ("    " +:+ line)
    with (String " " (String " " (String " " (String " " line)))).
  cbn. by rewrite Hline.
Qed.

End PrepareScript.

(** X22. Without a context, or with an empty one, the script is the fixed
    preamble, then the user code line by line, each line indented by
    four spaces, then the fixed [except] clause: splitting the script
    at its line breaks gives these lines back, so line [i] of the code
    is line [i + 9] of the script and no line of the code starts at
    the left margin. *)
Theorem prepared_script_lines repr code :
  PyStr.split (ascii_of_nat 10) (_prepare_script repr code None)
  = script_preamble
    ++ ((fun line => "    " +:+ line) <$> PyStr.split (ascii_of_nat 10) code)
    ++ script_epilogue
  ∧ _prepare_script repr code (Some ∅) = _prepare_script repr code None.
Proof.
  split; [|done].
  unfold _prepare_script. rewrite <- !app_assoc.
  apply (split_join (ascii_of_nat 10)).
  - done.
  - rewrite !Forall_app. split_and!; try by repeat constructor.
    apply Forall_fmap. eapply Forall_impl; [apply split_pieces|].
    intros line Hline. by apply split_indented.
Qed.

(** ** The wrapper, once more *)

Section Wrapper.

Variable format_exc : exn -> string.
Variable repr : gmap string pyvalue -> string.
Variable E : engine.

Lemma resolve_session_id_trace context sid w :
  trace (resolve_session_id E context sid w).2 = trace w.
Proof.
  destruct sid as [s|]; [done|].
  unfold resolve_session_id, dict_get, dict_set, deref, uuid4.
  unfold mbind, M_bind, mret, M_ret, modify, read. cbn.
  by destruct (default PyNone
                 (default ∅ (heap w !! context) !! "__sandbox_session_id__")).
Qed.

Lemma init_trace_raised sid o w e w' :
  init E sid o w = (Raise e, w') ->
  trace w' = trace w ∨ ∃ dir, trace w' = trace w ++ [EvMkdir dir].
Proof.
  unfold init, _ensure_image_exists, attempt, uuid4.
  unfold mbind, M_bind, mret, M_ret, modify, read, raise.
  destruct (py_truthy sid); [destruct sid as [|s|z]|].
  all: try (intros [= <- <-]; by left).
  all: destruct (mkdir_fault E); [intros [= <- <-]; by left|].
  all: rewrite init_client_connect; destruct (connect E) as [client|].
  all: try (intros [= <- <-]; right; by eexists).
  all: destruct (images_get_fault E) as [e1|]; [|done].
  all: destruct (exn_class e1); intros [= <- <-]; right; by eexists.
Qed.

End Wrapper.

(** X23. With a session id given and no client to be had, the wrapper
    still makes the session directory on the host and then returns
    the [SANDBOX ERROR] report of the [RuntimeError]; nothing else
    happens. *)
Theorem interpreter_without_daemon
  format_exc repr E code context s image_name image_tag w :
  s ≠ "" -> mkdir_fault E = None -> connect E = None ->
  sandboxed_python_interpreter format_exc repr E code context (Some s)
                               image_name image_tag w
  = (Return (sandbox_error format_exc docker_not_available),
     log_event
       (EvMkdir (Pathlib.joinpath (Pathlib.of_string "/tmp/sandboxes") s)) w).
Proof.
  intros Hs Hmkdir Hconnect.
  unfold sandboxed_python_interpreter, resolve_session_id, init, attempt.
  unfold try_except, mbind, M_bind, mret, M_ret, modify, raise.
  destruct s as [|c s]; [done|]. cbn. rewrite Hmkdir.
  by rewrite init_client_connect, Hconnect.
Qed.

Lemma interpreter_without_daemon_witness :
  sandboxed_python_interpreter sample_format_exc sample_repr unreachable
                               "print('done')" 0 (Some "alice")
                               "dolphin-python-sandbox" "latest" (world_with ∅)
  = (Return (sandbox_error sample_format_exc docker_not_available),
     log_event (EvMkdir alice_dir) (world_with ∅)).
Proof.
  apply (interpreter_without_daemon sample_format_exc sample_repr unreachable
           "print('done')" 0 "alice" "dolphin-python-sandbox" "latest"
           (world_with ∅)).
  - discriminate.
  - reflexivity.
  - reflexivity.
Defined.

(** X24. Through the wrapper, every container is created without network
    access, with 512m of memory and one CPU, as the user [sandbox]
    with all capabilities dropped, from the image named in the call:
    the wrapper passes on none of the executor's other options. *)
Theorem interpreter_containers_are_confined
  format_exc repr E code context sid image_name image_tag w cfg :
  EvCreate cfg
    ∈ trace (sandboxed_python_interpreter format_exc repr E code context sid
               image_name image_tag w).2 ->
  EvCreate cfg ∈ trace w
  ∨ (cfg_network_mode cfg = "none"
     ∧ cfg_mem_limit cfg = "512m"
     ∧ cfg_cpu_quota cfg = 100000%Z
     ∧ cfg_image cfg = image_name +:+ ":" +:+ image_tag
     ∧ cfg_user cfg = "sandbox"
     ∧ cfg_cap_drop cfg = ["ALL"]
     ∧ cfg_security_opt cfg = ["no-new-privileges"]).
Proof.
  unfold sandboxed_python_interpreter.
  pose proof (resolve_session_id_trace E context sid w) as Htrace.
  destruct (resolve_session_id_returns E context sid w) as (v & w1 & Hsid).
  rewrite Hsid in Htrace. cbn in Htrace.
  rewrite (bind_Return _ _ _ _ _ Hsid). unfold try_except.
  set (o := mk_options "/tmp/sandboxes" "/sandbox" image_name image_tag
                       "512m" 100000 false 30).
  unfold mbind at 1, M_bind at 1.
  destruct (init E v o w1) as [[self|e] w2] eqn:Hinit.
  - apply init_Return in Hinit
      as (s & client & -> & _ & _ & _ & Hgiven & Hdrawn).
    assert (trace w2 = trace w ++ [EvMkdir
              (Pathlib.joinpath (Pathlib.of_string "/tmp/sandboxes") s)])
      as Hmade.
    { rewrite <- Htrace.
      destruct (py_truthy v);
        [by destruct (Hgiven eq_refl) as [_ ->]
        |by destruct (Hdrawn eq_refl) as [_ ->]]. }
    unfold mbind, M_bind, deref, read.
    match goal with
    | |- context [execute_code ?f ?r ?E0 ?self ?c ?ctx ?w0] =>
        destruct (execute_code_events f r E0 self c ctx w0)
          as (evs & Hevs & Hcreated);
        destruct (execute_code f r E0 self c ctx w0) as [[out|e] w3]
    end; cbn in Hevs |- *; rewrite Hevs, Hmade, !elem_of_app;
      rewrite Forall_forall in Hcreated;
      (intros [[Hold|Hmk%list_elem_of_singleton]|Hnew];
       [by left|done|right]);
      specialize (Hcreated _ Hnew); cbn in Hcreated; by subst cfg.
  - cbn. apply init_trace_raised in Hinit as [->|[dir ->]]; rewrite Htrace.
    + by left.
    + intros [Hold|Hmk%list_elem_of_singleton]%elem_of_app; [by left|done].
Qed.

Lemma interpreter_containers_are_confined_witness :
  cfg_network_mode (create_args alice "script_1b4e28ba.py") = "none"
  ∧ cfg_mem_limit (create_args alice "script_1b4e28ba.py") = "512m".
Proof.
  destruct (interpreter_containers_are_confined sample_format_exc sample_repr
              exit_zero "print('done')" 0 (Some "alice")
              "dolphin-python-sandbox" "latest" (world_with ∅)
              (create_args alice "script_1b4e28ba.py"))
    as [Hold|(Hnetwork & Hmemory & _)].
  - vm_compute.
    apply list_elem_of_further, list_elem_of_further, list_elem_of_here.
  - by apply elem_of_nil in Hold.
  - split; [exact Hnetwork|exact Hmemory].
Defined.

(** ** Faults and reports *)

Section Reports.

Variable format_exc : exn -> string.
Variable repr : gmap string pyvalue -> string.

Ltac run_all :=
  unfold execute_code, execute_code_handler, container_wait, container_logs,
    remove_quietly, cleanup_script, uuid4, attempt, decode_utf8;
  unfold try_finally, try_except, mbind, M_bind, mret, M_ret, modify, read, raise.

Ltac branch :=
  match goal with
  | |- context [match ?x with _ => _ end] =>
      lazymatch x with
      | context [match _ with _ => _ end] => fail
      | _ => destruct x eqn:?
      end
  end.


End Reports.



